(** * server-skripsi: the sensor ingestion endpoint of [main.go]

    The repository holds two revisions of [main.go].  Both register the
    handlers [getRoot] and [postSensorData]; the second revision moves the
    payload parsing into [parseData] (guarded by [recover]) and adds a
    multipart fallback and a 400 answer.  The revisions are embedded as the
    modules [V1] and [V2]; what they share (strings, [strconv], the HTTP
    and InfluxDB vocabulary, the execution monad) comes first. *)

From Stdlib Require Import ZArith Lia Ascii String List.
From stdpp Require Import base option list strings gmap.

Local Open Scope string_scope.
Local Open Scope Z_scope.

(** ** Go strings: sequences of bytes *)

Definition byte_val (c : ascii) : Z := Z.of_N (N_of_ascii c).

Definition byte_eq (a b : ascii) : bool := Ascii.eqb a b.

Definition is_digit (c : ascii) : bool :=
  (48 <=? byte_val c) && (byte_val c <=? 57).

(** [strings.Split(s, sep)] for a separator of one byte, the only way the
    program calls it: the segments between the occurrences of [sep], in
    order, so that [n] occurrences give [n + 1] segments. *)
Fixpoint Split (s : string) (sep : ascii) : list string :=
  match s with
  | EmptyString => [EmptyString]
  | String c s' =>
      if byte_eq c sep then EmptyString :: Split s' sep
      else match Split s' sep with
           | [] => [String c EmptyString]
           | seg :: segs => String c seg :: segs
           end
  end.

(** [strings.NewReplacer(oldnew...)] where every old string is one byte
    (Go then builds its byte-to-string replacer): each byte of the input is
    replaced by the new string of the first pair that names it, and is kept
    when no pair does. *)
Definition Replacer := list (ascii * string).

Fixpoint replacement (r : Replacer) (c : ascii) : option string :=
  match r with
  | [] => None
  | (old, new) :: r' => if byte_eq c old then Some new else replacement r' c
  end.

Fixpoint Replace (r : Replacer) (s : string) : string :=
  match s with
  | EmptyString => EmptyString
  | String c s' =>
      match replacement r c with
      | Some new => new +:+ Replace r s'
      | None => String c (Replace r s')
      end
  end.

(** The replacer both revisions build: space, tab, newline, carriage return
    and NUL are deleted. *)
Definition replacer : Replacer :=
  [ (" "%char, ""); ("009"%char, ""); ("010"%char, "");
    ("013"%char, ""); ("000"%char, "") ].

Definition stripped (c : ascii) : bool :=
  byte_eq c " " || byte_eq c "009" || byte_eq c "010"
  || byte_eq c "013" || byte_eq c "000".

(** ** [strconv] *)

Inductive NumError := ErrSyntax | ErrRange.

Definition maxUint64 : Z := 2 ^ 64 - 1.

Definition uint64 (z : Z) : Z := z mod 2 ^ 64.

Definition int64 (z : Z) : Z := (z + 2 ^ 63) mod 2 ^ 64 - 2 ^ 63.

Definition lower (c : ascii) : Z := Z.lor (byte_val c) 32.

(** The digit loop of [strconv.ParseUint(s, 10, 64)].  It leaves at the
    first byte that is no digit of the base with a syntax error, and at the
    first digit that overflows with [maxVal] and a range error, without
    looking at the rest of the string. *)
Fixpoint ParseUint_loop (s : string) (n : Z) : Z * option NumError :=
  match s with
  | EmptyString => (n, None)
  | String c s' =>
      let d :=
        if (48 <=? byte_val c) && (byte_val c <=? 57) then Some (byte_val c - 48)
        else if (97 <=? lower c) && (lower c <=? 122) then Some (lower c - 97 + 10)
        else None in
      match d with
      | None => (0, Some ErrSyntax)
      | Some d =>
          if 10 <=? d then (0, Some ErrSyntax)
          else if maxUint64 / 10 + 1 <=? n then (maxUint64, Some ErrRange)
          else
            let n10 := uint64 (n * 10) in
            let n1 := uint64 (n10 + d) in
            if (n1 <? n10) || (maxUint64 <? n1) then (maxUint64, Some ErrRange)
            else ParseUint_loop s' n1
      end
  end.

Definition ParseUint (s : string) : Z * option NumError :=
  match s with
  | EmptyString => (0, Some ErrSyntax)
  | _ => ParseUint_loop s 0
  end.

(** [strconv.ParseInt(s, 10, 64)]: an optional sign, then [ParseUint]; a
    magnitude out of the range of [int64] gives the nearest bound and a
    range error. *)
Definition ParseInt (s : string) : Z * option NumError :=
  match s with
  | EmptyString => (0, Some ErrSyntax)
  | String c0 rest =>
      let neg := byte_eq c0 "-" in
      let s1 := if byte_eq c0 "+" || byte_eq c0 "-" then rest else s in
      let '(un, err) := ParseUint s1 in
      match err with
      | Some ErrSyntax => (0, Some ErrSyntax)
      | _ =>
          let cutoff := 2 ^ 63 in
          if negb neg && (cutoff <=? un) then (cutoff - 1, Some ErrRange)
          else if neg && (cutoff <? un) then (- cutoff, Some ErrRange)
          else
            let n := int64 un in
            (if neg then int64 (- n) else n, None)
      end
  end.

(** Floating point is kept behind the interface the program uses:
    [strconv.ParseFloat(s, 64)] returns a [float64] and an error.  The two
    laws are the part of its contract that the handlers rely on: a string
    that is not a number gives [0], and a string that is accepted is made of
    letters, digits, signs, dots and underscores only. *)
Definition float_byte (c : ascii) : bool :=
  let v := byte_val c in
  ((48 <=? v) && (v <=? 57)) || ((65 <=? v) && (v <=? 90))
  || ((97 <=? v) && (v <=? 122))
  || byte_eq c "+" || byte_eq c "-" || byte_eq c "." || byte_eq c "_".

Fixpoint all_bytes (p : ascii -> bool) (s : string) : bool :=
  match s with
  | EmptyString => true
  | String c s' => p c && all_bytes p s'
  end.

Class Float64 := {
  float64 : Type;
  float64_zero : float64;
  ParseFloat : string -> float64 * option NumError;
  ParseFloat_syntax :
    forall s v, ParseFloat s = (v, Some ErrSyntax) -> v = float64_zero;
  ParseFloat_bytes :
    forall s v, ParseFloat s = (v, None) -> all_bytes float_byte s = true;
}.

(** ** Execution: state passing with run-time panics

    A Go function body is a computation over a state that either completes
    or panics; the state reached before a panic is kept, which is what a
    deferred [recover] observes. *)

Inductive panic :=
| IndexOutOfRange (i : nat) (len : nat)
| NilDereference
| InterfaceConversion.

Inductive outcome (A : Type) :=
| Done (a : A)
| Panicked (p : panic).
Arguments Done {A} a.
Arguments Panicked {A} p.

Definition Go (S A : Type) : Type := S -> outcome A * S.

Definition ret {S A} (a : A) : Go S A := fun s => (Done a, s).

Definition bind {S A B} (m : Go S A) (k : A -> Go S B) : Go S B :=
  fun s =>
    match m s with
    | (Done a, s') => k a s'
    | (Panicked p, s') => (Panicked p, s')
    end.

Definition throw {S A} (p : panic) : Go S A := fun s => (Panicked p, s).

Definition update {S} (f : S -> S) : Go S unit := fun s => (Done tt, f s).

Definition gets {S A} (f : S -> A) : Go S A := fun s => (Done (f s), s).

Declare Scope go_scope.
Delimit Scope go_scope with go.
Notation "x <- m ;; k" := (bind m (fun x => k))
  (at level 100, m at next level, right associativity) : go_scope.
Notation "m ;; k" := (bind m (fun _ => k))
  (at level 100, right associativity) : go_scope.

(** [a[i]]: the element, or the run-time panic of an index out of range. *)
Definition index {S A} (a : list A) (i : nat) : Go S A :=
  match a !! i with
  | Some v => ret v
  | None => throw (IndexOutOfRange i (length a))
  end.

(** [*p] for a pointer that may be nil. *)
Definition deref {S A} (p : option A) : Go S A :=
  match p with
  | Some v => ret v
  | None => throw NilDereference
  end.

(** ** Errors, logging, HTTP and InfluxDB vocabulary *)

Inductive error := errors_New (msg : string).

Definition Values := gmap string (list string).

Record multipart_Form := { Value : Values }.

(** [time.Unix(sec, nsec)] for [nsec] within a second, as the program
    calls it (with [0]). *)
Record Time := Unix { sec : Z; nsec : Z }.

(** Sets the entry of [k] where it is, or appends it. *)
Fixpoint upsert {A} (k : string) (v : A) (l : list (string * A)) : list (string * A) :=
  match l with
  | [] => [(k, v)]
  | (k', v') :: l' =>
      if String.eqb k' k then (k', v) :: l' else (k', v') :: upsert k v l'
  end.

(** [encoding/json.Marshal] of a [map[string]string] whose keys and values
    need no escaping, the entries given in key order. *)
Definition json_quote (s : string) : string :=
  String "034" (s +:+ String "034" "").

Fixpoint json_members (m : list (string * string)) : string :=
  match m with
  | [] => ""
  | [(k, v)] => json_quote k +:+ ":" +:+ json_quote v
  | (k, v) :: m' => json_quote k +:+ ":" +:+ json_quote v +:+ "," +:+ json_members m'
  end.

Definition json_Marshal (m : list (string * string)) : string * option error :=
  ("{" +:+ json_members m +:+ "}", None).

Definition StatusOK : Z := 200.
Definition StatusBadRequest : Z := 400.
Definition StatusNotFound : Z := 404.
Definition StatusInternalServerError : Z := 500.

Section Vocabulary.
Context {F : Float64}.

(** A point of the InfluxDB client: [AddTag] and [AddField] overwrite the
    entry of a key that is present and append otherwise. *)
Record Point := {
  measurement : string;
  tags : list (string * string);
  fields : list (string * float64);
  time : option Time;
}.

Definition NewPointWithMeasurement (m : string) : Point :=
  {| measurement := m; tags := []; fields := []; time := None |}.

Definition AddTag (k v : string) (p : Point) : Point :=
  {| measurement := measurement p; tags := upsert k v (tags p);
     fields := fields p; time := time p |}.

Definition AddField (k : string) (v : float64) (p : Point) : Point :=
  {| measurement := measurement p; tags := tags p;
     fields := upsert k v (fields p); time := time p |}.

Definition SetTime (t : Time) (p : Point) : Point :=
  {| measurement := measurement p; tags := tags p;
     fields := fields p; time := Some t |}.

(** The blocking write API, as a test double sees it: the points of a
    call decide the error it returns. *)
Record WriteAPIBlocking := { WritePoint_result : list Point -> option error }.

Inductive ctx_value :=
| ctx_client
| ctx_writeApi (api : WriteAPIBlocking).

(** A request as the handlers observe it: besides method, path and
    headers, the outcome of [ParseForm] (its error and the [Form] it
    leaves), whether [Body] is nil, the [MultipartForm] that
    [ParseMultipartForm] leaves (nil when it fails), and the values of
    the request context. *)
Record Request := {
  Method : string;
  URL_Path : string;
  Header : list (string * list string);
  Body_nil : bool;
  ContentLength : Z;
  ParseForm : option error;
  Form : Values;
  MultipartForm : option multipart_Form;
  Context : string -> option ctx_value;
}.

Inductive log_arg :=
| a_string (s : string)
| a_int (n : Z)
| a_float (v : float64)
| a_error (e : error)
| a_header (h : list (string * list string)).

(** A log line: the format as the source spells it, and its operands. *)
Inductive log_line :=
| Printf (format : string) (args : list log_arg)
| Println (args : list log_arg).

(** What a handler acts on: the response writer ([status] is [None]
    until the header is written), the log, and the calls made to
    [WritePoint], each with its points. *)
Record World := {
  status : option Z;
  headers : list (string * string);
  body : string;
  log : list log_line;
  writes : list (list Point);
}.

Definition World0 : World :=
  {| status := None; headers := []; body := ""; log := []; writes := [] |}.

Definition log_add (l : log_line) (w : World) : World :=
  {| status := status w; headers := headers w; body := body w;
     log := log w ++ [l]; writes := writes w |}.

Definition log_Printf (format : string) (args : list log_arg) : Go World unit :=
  update (log_add (Printf format args)).

Definition log_Println (args : list log_arg) : Go World unit :=
  update (log_add (Println args)).

(** [w.Header().Set], [w.WriteHeader] (ignored once the header is
    written) and [w.Write] (which writes the header with 200 first when
    it was not written). *)
Definition Header_Set (k v : string) : Go World unit :=
  update (fun w =>
    {| status := status w; headers := upsert k v (headers w); body := body w;
       log := log w; writes := writes w |}).

Definition WriteHeader (code : Z) : Go World unit :=
  update (fun w =>
    {| status := match status w with Some c => Some c | None => Some code end;
       headers := headers w; body := body w; log := log w; writes := writes w |}).

Definition Write (b : string) : Go World unit :=
  update (fun w =>
    {| status := match status w with Some c => Some c | None => Some StatusOK end;
       headers := headers w; body := body w +:+ b;
       log := log w; writes := writes w |}).

(** [http.Error]: a plain-text answer with the given code; [Fprintln]
    ends the message with a newline. *)
Definition http_Error (msg : string) (code : Z) : Go World unit :=
  (Header_Set "Content-Type" "text/plain; charset=utf-8" ;;
   Header_Set "X-Content-Type-Options" "nosniff" ;;
   WriteHeader code ;;
   Write (msg +:+ String "010" ""))%go.

(** [r.FormValue(key)] once [ParseForm] has run: the first value of the
    key in [r.Form], or the empty string. *)
Definition FormValue (r : Request) (key : string) : string :=
  match Form r !! key with
  | Some (v :: _) => v
  | _ => ""
  end.

(** [m[key]] on a map of string slices: the nil slice for a missing key. *)
Definition values_of (m : Values) (key : string) : list string :=
  match m !! key with
  | Some vs => vs
  | None => []
  end.

(** [ctx.Value(key("writeApi")).(api.WriteAPIBlocking)] *)
Definition writeApi_of (r : Request) : Go World WriteAPIBlocking :=
  match Context r "writeApi" with
  | Some (ctx_writeApi api) => ret api
  | _ => throw InterfaceConversion
  end.

(** [writeApi.WritePoint(ctx, points...)]: the call is recorded and the
    API's answer returned. *)
Definition WritePoint (api : WriteAPIBlocking) (ps : list Point) : Go World (option error) :=
  fun w =>
    (Done (WritePoint_result api ps),
     {| status := status w; headers := headers w; body := body w;
        log := log w; writes := writes w ++ [ps] |}).

(** The context [main] installs through [BaseContext]. *)
Definition BaseContext (api : WriteAPIBlocking) (k : string) : option ctx_value :=
  if String.eqb k "writeApi" then Some (ctx_writeApi api)
  else if String.eqb k "db" then Some ctx_client
  else None.

Definition WithContext (ctx : string -> option ctx_value) (r : Request) : Request :=
  {| Method := Method r; URL_Path := URL_Path r; Header := Header r;
     Body_nil := Body_nil r; ContentLength := ContentLength r;
     ParseForm := ParseForm r; Form := Form r;
     MultipartForm := MultipartForm r; Context := ctx |}.

(** What the server sends once the handler is done: the status written,
    or 200 when the handler wrote nothing; nothing at all when the
    handler panicked (the server drops the connection). *)
Definition response (res : outcome unit * World) : option (Z * string) :=
  match res with
  | (Done _, w) =>
      Some (match status w with Some c => c | None => StatusOK end, body w)
  | (Panicked _, _) => None
  end.

(** [getRoot] is the same in both revisions. *)
Definition getRoot (r : Request) : Go World unit :=
  if negb (String.eqb (URL_Path r) "/") then
    http_Error "404 not found." StatusNotFound
  else if negb (String.eqb (Method r) "GET") then
    http_Error "Method is not supported." StatusNotFound
  else Write "Welcome".

(** The two points a submission is turned into. *)
Definition air_point (node : string) (timestamp : Z) (hum temp : float64) : Point :=
  SetTime (Unix timestamp 0)
    (AddField "temperature" temp
      (AddField "humidity" hum
        (AddTag "location" node (NewPointWithMeasurement "air")))).

Definition accelerometer_point (node : string) (timestamp : Z) (x y z : float64) : Point :=
  SetTime (Unix timestamp 0)
    (AddField "z" z
      (AddField "y" y
        (AddField "x" x
          (AddTag "location" node (NewPointWithMeasurement "accelerometer"))))).
End Vocabulary.

(** ** First revision of [main.go] *)

Module V1.
Section Handlers.
Context {F : Float64}.

(** Lines 120 to 129 of [postSensorData]: the payload is split and
    converted in place; every index expression can panic, and nothing in
    this revision recovers. *)
Definition parse_inline {S} (data : string)
  : Go S (Z * float64 * float64 * float64 * float64 * float64) :=
  (let bodyArr := Split data "|" in
   s0 <- index bodyArr 0 ;;
   let timestamp := fst (ParseInt s0) in
   s1 <- index bodyArr 1 ;;
   let hum := fst (ParseFloat s1) in
   s2 <- index bodyArr 2 ;;
   let temp := fst (ParseFloat s2) in
   s3 <- index bodyArr 3 ;;
   let acc := Split s3 "," in
   a0 <- index acc 0 ;;
   let x := fst (ParseFloat a0) in
   a1 <- index acc 1 ;;
   let y := fst (ParseFloat a1) in
   a2 <- index acc 2 ;;
   let z := fst (ParseFloat a2) in
   ret (timestamp, hum, temp, x, y, z))%go.

Definition postSensorData (r : Request) : Go World unit :=
  if negb (String.eqb (URL_Path r) "/api") then
    http_Error "404 not found." StatusNotFound
  else if negb (String.eqb (Method r) "POST") then
    http_Error "Method is not supported." StatusNotFound
  else
    (writeApi <- writeApi_of r ;;
     match ParseForm r with
     | Some err => log_Printf "Error parsing form: %v" [a_error err]
     | None =>
         let data := FormValue r "data" in
         let node := FormValue r "node" in
         let node := if String.eqb node "" then "unknown" else node in
         let data := Replace replacer data in
         parsed <- parse_inline data ;;
         let '(timestamp, hum, temp, x, y, z) := parsed in
         log_Printf
           "Node: %s, Timestamp: %d, Humidity: %f, Temperature: %f, Accelerometer: %f, %f, %f\n"
           [a_string node; a_int timestamp; a_float hum; a_float temp;
            a_float x; a_float y; a_float z] ;;
         let p1 := air_point node timestamp hum temp in
         let p2 := accelerometer_point node timestamp x y z in
         err <- WritePoint writeApi [p1; p2] ;;
         match err with
         | Some e => log_Println [a_error e]
         | None => ret tt
         end ;;
         match json_Marshal [("status", "ok")] with
         | (_, Some e) =>
             log_Println [a_error e] ;;
             WriteHeader StatusInternalServerError
         | (msg, None) => Write msg
         end
     end)%go.
End Handlers.
End V1.

(** ** Second revision of [main.go] *)

Module V2.
Section Handlers.
Context {F : Float64}.

(** The named results of [parseData]. *)
Record results := {
  timestamp : Z;
  hum : float64;
  temp : float64;
  x : float64;
  y : float64;
  z : float64;
  err : option error;
}.

Definition results0 : results :=
  {| timestamp := 0; hum := float64_zero; temp := float64_zero;
     x := float64_zero; y := float64_zero; z := float64_zero; err := None |}.

(** The frame of a call of [parseData]: its named results, which the
    deferred function can still change, and the world it logs to. *)
Definition frame : Type := results * World.

Definition assign (f : results -> results) : Go frame unit :=
  update (fun fr : frame => (f (fst fr), snd fr)).

Definition logging (l : log_line) : Go frame unit :=
  update (fun fr : frame => (fst fr, log_add l (snd fr))).

Definition set_timestamp (v : Z) (r : results) : results :=
  {| timestamp := v; hum := hum r; temp := temp r; x := x r; y := y r;
     z := z r; err := err r |}.
Definition set_hum (v : float64) (r : results) : results :=
  {| timestamp := timestamp r; hum := v; temp := temp r; x := x r; y := y r;
     z := z r; err := err r |}.
Definition set_temp (v : float64) (r : results) : results :=
  {| timestamp := timestamp r; hum := hum r; temp := v; x := x r; y := y r;
     z := z r; err := err r |}.
Definition set_x (v : float64) (r : results) : results :=
  {| timestamp := timestamp r; hum := hum r; temp := temp r; x := v; y := y r;
     z := z r; err := err r |}.
Definition set_y (v : float64) (r : results) : results :=
  {| timestamp := timestamp r; hum := hum r; temp := temp r; x := x r; y := v;
     z := z r; err := err r |}.
Definition set_z (v : float64) (r : results) : results :=
  {| timestamp := timestamp r; hum := hum r; temp := temp r; x := x r; y := y r;
     z := v; err := err r |}.
Definition set_err (v : option error) (r : results) : results :=
  {| timestamp := timestamp r; hum := hum r; temp := temp r; x := x r; y := y r;
     z := z r; err := v |}.

(** The body of [parseData], lines 256 to 268.  Each conversion assigns
    its named result and drops the conversion error. *)
Definition parseData_body (data : string) : Go frame unit :=
  (logging (Printf "incoming data: %s\n" [a_string data]) ;;
   let bodyArr := Split data "|" in
   s0 <- index bodyArr 0 ;;
   assign (set_timestamp (fst (ParseInt s0))) ;;
   s1 <- index bodyArr 1 ;;
   assign (set_hum (fst (ParseFloat s1))) ;;
   s2 <- index bodyArr 2 ;;
   assign (set_temp (fst (ParseFloat s2))) ;;
   s3 <- index bodyArr 3 ;;
   let acc := Split s3 "," in
   a0 <- index acc 0 ;;
   assign (set_x (fst (ParseFloat a0))) ;;
   a1 <- index acc 1 ;;
   assign (set_y (fst (ParseFloat a1))) ;;
   a2 <- index acc 2 ;;
   assign (set_z (fst (ParseFloat a2))) ;;
   res <- gets fst ;;
   logging (Printf
     "Timestamp: %d, Humidity: %f, Temperature: %f, Accelerometer: %f, %f, %f\n"
     [a_int (timestamp res); a_float (hum res); a_float (temp res);
      a_float (x res); a_float (y res); a_float (z res)]) ;;
   assign (set_err None))%go.

(** [parseData]: the body, then the deferred function, which turns a
    panic into the error [error parsing data] and otherwise leaves the
    results alone.  No panic gets past it. *)
Definition parseData (data : string) : Go World results :=
  fun w =>
    match parseData_body data (results0, w) with
    | (Done _, (res, w')) => (Done res, w')
    | (Panicked _, (res, w')) =>
        (Done (set_err (Some (errors_New "error parsing data")) res), w')
    end.

(** Lines 288 to 299: the fields [data] and [node], from the form when
    [ParseForm] succeeds and from the multipart form when it fails on a
    request with a body; [None] stands for the early [return]. *)
Definition form_fields (r : Request) : Go World (option (string * string)) :=
  (match ParseForm r with
   | Some err =>
       if Body_nil r then
         log_Printf "Error parsing form: %v" [a_error err] ;;
         ret None
       else
         mf <- deref (MultipartForm r) ;;
         data <- index (values_of (Value mf) "data") 0 ;;
         mf <- deref (MultipartForm r) ;;
         node <- index (values_of (Value mf) "node") 0 ;;
         ret (Some (data, node))
   | None => ret (Some (FormValue r "data", FormValue r "node"))
   end)%go.

Definition postSensorData (r : Request) : Go World unit :=
  if negb (String.eqb (URL_Path r) "/api") then
    http_Error "404 not found." StatusNotFound
  else if negb (String.eqb (Method r) "POST") then
    http_Error "Method is not supported." StatusNotFound
  else
    (writeApi <- writeApi_of r ;;
     log_Println [a_header (Header r)] ;;
     fields <- form_fields r ;;
     match fields with
     | None => ret tt
     | Some (data, node) =>
         let node := if String.eqb node "" then "unknown" else node in
         let data := Replace replacer data in
         res <- parseData data ;;
         match err res with
         | Some e =>
             log_Printf "Error: %s\n" [a_error e] ;;
             WriteHeader StatusBadRequest ;;
             Write "400 - Bad request data"
         | None =>
             let p1 := air_point node (timestamp res) (hum res) (temp res) in
             let p2 := accelerometer_point node (timestamp res) (x res) (y res) (z res) in
             err <- WritePoint writeApi [p1; p2] ;;
             match err with
             | Some e => log_Println [a_error e]
             | None => ret tt
             end ;;
             match json_Marshal [("status", "ok")] with
             | (_, Some e) =>
                 log_Println [a_error e] ;;
                 WriteHeader StatusInternalServerError ;;
                 Write "500 - Something bad happened!"
             | (msg, None) => Write msg
             end
         end
     end)%go.
End Handlers.
End V2.

(** ** An instance of the float interface for running the handlers

    Plain decimal literals, [[+-]digits[.digits]] with at least one digit,
    read exactly as a coefficient and a power of ten; every other string is
    a syntax error.  It serves to evaluate the handlers on concrete
    payloads; the theorems hold for every instance of [Float64]. *)

Module Decimal.
Record decimal := { coefficient : Z; exponent : Z }.

(** Reads the digits [s] starts with: their value on top of [n], how many
    there were on top of [k], and the rest of [s]. *)
Fixpoint scan_digits (s : string) (n : Z) (k : nat) : Z * nat * string :=
  match s with
  | EmptyString => (n, k, EmptyString)
  | String c s' =>
      if is_digit c then scan_digits s' (10 * n + (byte_val c - 48)) (S k)
      else (n, k, s)
  end.

Definition unsigned_part (s : string) : string :=
  match s with
  | String c rest => if byte_eq c "+" || byte_eq c "-" then rest else s
  | EmptyString => EmptyString
  end.

Definition negative (s : string) : bool :=
  match s with
  | String c _ => byte_eq c "-"
  | EmptyString => false
  end.

Definition parse (s : string) : decimal * option NumError :=
  let '(i, ki, s2) := scan_digits (unsigned_part s) 0 0 in
  let '(m, kf, s3) :=
    match s2 with
    | String c rest => if byte_eq c "." then scan_digits rest i 0 else (i, 0%nat, s2)
    | EmptyString => (i, 0%nat, s2)
    end in
  match s3 with
  | EmptyString =>
      if (0 <? Z.of_nat (ki + kf)) then
        ({| coefficient := if negative s then - m else m;
            exponent := - Z.of_nat kf |}, None)
      else ({| coefficient := 0; exponent := 0 |}, Some ErrSyntax)
  | _ => ({| coefficient := 0; exponent := 0 |}, Some ErrSyntax)
  end.
End Decimal.

Lemma scan_digits_bytes s : forall n k n' k' rest,
  Decimal.scan_digits s n k = (n', k', rest) ->
  all_bytes float_byte rest = true -> all_bytes float_byte s = true.
Proof.
  induction s as [|c s IH]; intros n k n' k' rest Hs Hrest; simpl in *.
  - done.
  - destruct (is_digit c) eqn:Hd.
    + apply andb_true_iff. split.
      * unfold float_byte. unfold is_digit in Hd. cbv zeta.
        rewrite Hd. reflexivity.
      * eapply IH; eauto.
    + inversion Hs; subst. exact Hrest.
Qed.

Lemma Decimal_parse_syntax s v :
  Decimal.parse s = (v, Some ErrSyntax) ->
  v = {| Decimal.coefficient := 0; Decimal.exponent := 0 |}.
Proof.
  unfold Decimal.parse.
  destruct (Decimal.scan_digits _ 0 0) as [[i ki] s2].
  destruct (match s2 with EmptyString => _ | String c rest => _ end) as [[m kf] s3].
  destruct s3; [destruct (0 <? _)|]; intros H; inversion H; reflexivity.
Qed.

Lemma Decimal_parse_bytes s v :
  Decimal.parse s = (v, None) -> all_bytes float_byte s = true.
Proof.
  unfold Decimal.parse.
  destruct (Decimal.scan_digits _ 0 0) as [[i ki] s2] eqn:H1.
  destruct (match s2 with EmptyString => _ | String c rest => _ end)
    as [[m kf] s3] eqn:H2.
  destruct s3 as [|c3 s3]; [|discriminate].
  intros _.
  assert (Hs2 : all_bytes float_byte s2 = true).
  { destruct s2 as [|c rest]; [done|].
    destruct (byte_eq c ".") eqn:Hc.
    - simpl. apply andb_true_iff. split.
      + unfold float_byte. rewrite Hc. cbv zeta.
        rewrite !orb_true_r. reflexivity.
      + eapply scan_digits_bytes; eauto.
    - inversion H2. }
  assert (Hu : all_bytes float_byte (Decimal.unsigned_part s) = true)
    by (eapply scan_digits_bytes; eauto).
  destruct s as [|c s]; [done|].
  simpl in Hu. simpl.
  destruct (byte_eq c "+") eqn:Hp; simpl in Hu.
  { rewrite Hu. unfold float_byte. rewrite Hp. cbv zeta.
    rewrite !orb_true_r. reflexivity. }
  destruct (byte_eq c "-") eqn:Hm; simpl in Hu.
  { rewrite Hu. unfold float_byte. rewrite Hm. cbv zeta.
    rewrite !orb_true_r. reflexivity. }
  exact Hu.
Qed.

Definition DecimalFloat64 : Float64 := {|
  float64 := Decimal.decimal;
  float64_zero := {| Decimal.coefficient := 0; Decimal.exponent := 0 |};
  ParseFloat := Decimal.parse;
  ParseFloat_syntax := Decimal_parse_syntax;
  ParseFloat_bytes := Decimal_parse_bytes;
|}.

(** ** Vocabulary of the statements

    Names for what the theorems speak about: payloads free of a
    separator, the results and the log lines of the parsing step, the
    fields of a submission, the ingestion requests [main] serves, and the
    two records of a submission written out. *)

Definition no_sep (sep : ascii) (s : string) : bool :=
  all_bytes (fun c => negb (byte_eq c sep)) s.

(** The number a string of decimal digits denotes, on top of [n]. *)
Fixpoint digits_value (s : string) (n : Z) : Z :=
  match s with
  | EmptyString => n
  | String c s' => digits_value s' (n * 10 + (byte_val c - 48))
  end.

(** The bytes of [s] that satisfy [p], in order. *)
Fixpoint keep (p : ascii -> bool) (s : string) : string :=
  match s with
  | EmptyString => EmptyString
  | String c s' => if p c then String c (keep p s') else keep p s'
  end.

Section Statements.
Context {F : Float64}.

Definition add_logs (ls : list log_line) (w : World) : World :=
  {| status := status w; headers := headers w; body := body w;
     log := log w ++ ls; writes := writes w |}.

(** The results and the log lines of [parseData], read off a run in the
    empty world. *)
Definition parsed (data : string) : V2.results :=
  match fst (V2.parseData data World0) with
  | Done res => res
  | Panicked _ => V2.results0
  end.

Definition parse_log (data : string) : list log_line :=
  log (snd (V2.parseData data World0)).

(** What [form_fields] returns and logs, read off a run in the empty
    world. *)
Definition submitted (r : Request) : outcome (option (string * string)) :=
  fst (V2.form_fields r World0).

Definition form_log (r : Request) : list log_line :=
  log (snd (V2.form_fields r World0)).

(** A request for the ingestion route as [main] serves it: [POST] on
    [/api], with the write API in its context. *)
Definition ingestion (api : WriteAPIBlocking) (r : Request) : Prop :=
  URL_Path r = "/api" /\ Method r = "POST"
  /\ Context r "writeApi" = Some (ctx_writeApi api).

Definition node_tag (node : string) : string :=
  if String.eqb node "" then "unknown" else node.

Definition status_ok : string := fst (json_Marshal [("status", "ok")]).

Definition air_record (node : string) (res : V2.results) : Point :=
  {| measurement := "air";
     tags := [("location", node)];
     fields := [("humidity", V2.hum res); ("temperature", V2.temp res)];
     time := Some (Unix (V2.timestamp res) 0) |}.

Definition accelerometer_record (node : string) (res : V2.results) : Point :=
  {| measurement := "accelerometer";
     tags := [("location", node)];
     fields := [("x", V2.x res); ("y", V2.y res); ("z", V2.z res)];
     time := Some (Unix (V2.timestamp res) 0) |}.

Definition write_log (api : WriteAPIBlocking) (ps : list Point) : list log_line :=
  match WritePoint_result api ps with
  | Some e => [Println [a_error e]]
  | None => []
  end.
End Statements.

(** ** Requests to run the handlers on *)

Section Examples.
Context {F : Float64}.

Definition accepting_api : WriteAPIBlocking :=
  {| WritePoint_result := fun _ => None |}.


(** A request whose form [ParseForm] has read. *)
Definition form_request (method path : string) (api : WriteAPIBlocking)
    (form : list (string * list string)) : Request :=
  {| Method := method; URL_Path := path; Header := [];
     Body_nil := false; ContentLength := 0;
     ParseForm := None; Form := list_to_map form;
     MultipartForm := None; Context := BaseContext api |}.

(** A request on which [ParseForm] fails (a bad escape in the query) and
    whose multipart body [ParseMultipartForm] has read. *)
Definition multipart_request (api : WriteAPIBlocking)
    (values : list (string * list string)) : Request :=
  {| Method := "POST"; URL_Path := "/api"; Header := [];
     Body_nil := false; ContentLength := 0;
     ParseForm := Some (errors_New "invalid URL escape");
     Form := ∅;
     MultipartForm := Some {| Value := list_to_map values |};
     Context := BaseContext api |}.
End Examples.

Definition dec (c e : Z) : @float64 DecimalFloat64 :=
  {| Decimal.coefficient := c; Decimal.exponent := e |}.

Definition payload : string := "1700000000|55.2|21.4|0.01,0.02,9.81".

Definition garbage_request : Request (F := DecimalFloat64) :=
  form_request "POST" "/api" accepting_api [("data", ["garbage"])].

Definition valid_request (api : WriteAPIBlocking (F := DecimalFloat64)) : Request :=
  form_request "POST" "/api" api [("data", [payload])].

Definition nodeless_multipart_request : Request (F := DecimalFloat64) :=
  multipart_request accepting_api [("data", [payload])].

(** A request with an empty context. *)
Definition bare_request (method path : string) : Request (F := DecimalFloat64) :=
  {| Method := method; URL_Path := path; Header := [];
     Body_nil := false; ContentLength := 0;
     ParseForm := None; Form := ∅;
     MultipartForm := None; Context := fun _ => None |}.

(** A request on which [ParseForm] fails and that has no multipart form. *)
Definition form_error_request (body_nil : bool) : Request (F := DecimalFloat64) :=
  {| Method := "POST"; URL_Path := "/api"; Header := [];
     Body_nil := body_nil; ContentLength := 0;
     ParseForm := Some (errors_New "invalid URL escape"); Form := ∅;
     MultipartForm := None; Context := BaseContext accepting_api |}.

Definition spaced_multipart_request : Request (F := DecimalFloat64) :=
  multipart_request accepting_api
    [("data", [" 1700000000|55.2 |21.4|0.01, 0.02,9.81"]); ("node", ["unknown"])].

Definition named_request : Request (F := DecimalFloat64) :=
  form_request "POST" "/api" accepting_api
    [("data", [payload]); ("node", ["roof 2"])].

(** * Theorems *)

(** ** The library models on concrete inputs *)

Example Split_payload :
  Split payload "|" = ["1700000000"; "55.2"; "21.4"; "0.01,0.02,9.81"]
  /\ Split "0.01,0.02,9.81" "," = ["0.01"; "0.02"; "9.81"].
Proof. split; reflexivity. Qed.

Example Split_edges :
  Split "" "|" = [""]
  /\ Split "garbage" "|" = ["garbage"]
  /\ Split "|" "|" = [""; ""]
  /\ Split "a||b|" "|" = ["a"; ""; "b"; ""].
Proof. repeat split; reflexivity. Qed.

Example ParseInt_examples :
  ParseInt "1700000000" = (1700000000, None)
  /\ ParseInt "-42" = (-42, None)
  /\ ParseInt "+7" = (7, None)
  /\ ParseInt "" = (0, Some ErrSyntax)
  /\ ParseInt "-" = (0, Some ErrSyntax)
  /\ ParseInt "12a" = (0, Some ErrSyntax)
  /\ ParseInt "1.5" = (0, Some ErrSyntax)
  /\ ParseInt "9223372036854775807" = (9223372036854775807, None)
  /\ ParseInt "9223372036854775808" = (9223372036854775807, Some ErrRange)
  /\ ParseInt "-9223372036854775808" = (-9223372036854775808, None)
  /\ ParseInt "-9223372036854775809" = (-9223372036854775808, Some ErrRange)
  /\ ParseInt "18446744073709551616" = (9223372036854775807, Some ErrRange).
Proof. repeat split; vm_compute; reflexivity. Qed.

(** The digit loop stops at the first overflow: what follows the
    overflowing digit is not looked at. *)
Example ParseInt_overflow_first :
  ParseInt "99999999999999999999x" = (9223372036854775807, Some ErrRange)
  /\ ParseInt "x99999999999999999999" = (0, Some ErrSyntax).
Proof. split; vm_compute; reflexivity. Qed.

Example Replace_example :
  Replace replacer (String "009" " 17 | 5" +:+ String "013" (String "010" "5"))
  = "17|55".
Proof. reflexivity. Qed.

(** The body of the success answer, byte by byte: [{"status":"ok"}]. *)
Example status_ok_bytes :
  map byte_val (list_ascii_of_string status_ok)
  = [123; 34; 115; 116; 97; 116; 117; 115; 34; 58; 34; 111; 107; 34; 125].
Proof. reflexivity. Qed.

(** ** Bytes and splitting *)

Lemma append_byte c s : String c "" +:+ s = String c s.
Proof. reflexivity. Qed.

Lemma all_bytes_app p a b :
  all_bytes p (a +:+ b) = all_bytes p a && all_bytes p b.
Proof.
  induction a as [|c a IH]; simpl; [done|].
  rewrite IH. apply andb_assoc.
Qed.

Lemma all_bytes_impl (p q : ascii -> bool) s :
  (forall c, p c = true -> q c = true) ->
  all_bytes p s = true -> all_bytes q s = true.
Proof.
  intros Hpq. induction s as [|c s IH]; simpl; [done|].
  rewrite !andb_true_iff. intros [Hc Hs]. auto.
Qed.

Lemma Split_length_pos s sep : (1 <= length (Split s sep))%nat.
Proof.
  induction s as [|c s IH]; simpl; [lia|].
  destruct (byte_eq c sep); simpl; [lia|].
  destruct (Split s sep); simpl in *; lia.
Qed.

Lemma Split_no_sep sep s : no_sep sep s = true -> Split s sep = [s].
Proof.
  unfold no_sep. induction s as [|c s IH]; simpl; [done|].
  rewrite andb_true_iff, negb_true_iff. intros [Hc Hs].
  rewrite Hc, (IH Hs). reflexivity.
Qed.

Lemma Split_app sep a b :
  no_sep sep a = true -> Split (a +:+ String sep b) sep = a :: Split b sep.
Proof.
  unfold no_sep. induction a as [|c a IH]; simpl.
  - intros _. unfold byte_eq. rewrite Ascii.eqb_refl. reflexivity.
  - rewrite andb_true_iff, negb_true_iff. intros [Hc Ha].
    rewrite Hc, (IH Ha). reflexivity.
Qed.

Lemma float_byte_no_sep sep s :
  float_byte sep = false -> all_bytes float_byte s = true -> no_sep sep s = true.
Proof.
  intros Hsep. apply all_bytes_impl. intros c Hc.
  apply negb_true_iff. unfold byte_eq.
  destruct (Ascii.eqb c sep) eqn:E; [|done].
  apply Ascii.eqb_eq in E. congruence.
Qed.

(** ** The sanitizing replacer *)

Lemma replacement_replacer c :
  replacement replacer c = if stripped c then Some "" else None.
Proof.
  unfold replacer, stripped. simpl.
  repeat (destruct (byte_eq c _); [reflexivity|]). reflexivity.
Qed.

Lemma Replace_replacer_cons c s :
  Replace replacer (String c s)
  = if stripped c then Replace replacer s else String c (Replace replacer s).
Proof.
  change (Replace replacer (String c s)) with
    (match replacement replacer c with
     | Some new => new +:+ Replace replacer s
     | None => String c (Replace replacer s)
     end).
  rewrite replacement_replacer. destruct (stripped c); reflexivity.
Qed.

(** What the replacer returns holds none of the five bytes. *)
Lemma Replace_replacer_clean s :
  all_bytes (fun c => negb (stripped c)) (Replace replacer s) = true.
Proof.
  induction s as [|c s IH]; [done|].
  rewrite Replace_replacer_cons. destruct (stripped c) eqn:E; [done|].
  simpl. rewrite E. exact IH.
Qed.

(** A string that holds none of the five bytes is returned as it is. *)
Lemma Replace_replacer_id s :
  all_bytes (fun c => negb (stripped c)) s = true -> Replace replacer s = s.
Proof.
  induction s as [|c s IH]; [done|].
  simpl all_bytes. rewrite andb_true_iff, negb_true_iff. intros [Hc Hs].
  rewrite Replace_replacer_cons, Hc, (IH Hs). reflexivity.
Qed.

(** C9. Sanitizing (deleting every space, tab, newline, carriage return
    and NUL) is idempotent: the replacer applied to a string it has already
    sanitized returns that string. *)
Theorem C9_sanitize_idempotent (s : string) :
  Replace replacer (Replace replacer s) = Replace replacer s.
Proof. apply Replace_replacer_id, Replace_replacer_clean. Qed.

(** ** [ParseInt] *)

Lemma ParseUint_loop_bytes s : forall n v,
  ParseUint_loop s n = (v, None) -> all_bytes float_byte s = true.
Proof.
  induction s as [|c s IH]; intros n v; simpl; [done|].
  destruct ((48 <=? byte_val c) && (byte_val c <=? 57)) eqn:Hd.
  - destruct (10 <=? byte_val c - 48); [discriminate|].
    destruct (maxUint64 / 10 + 1 <=? n); [discriminate|].
    destruct (_ || _); [discriminate|].
    intros H. apply IH in H. rewrite H.
    unfold float_byte. cbv zeta. rewrite Hd. reflexivity.
  - destruct ((97 <=? lower c) && (lower c <=? 122)) eqn:Hl; [|discriminate].
    apply andb_true_iff in Hl as [Hl _]. apply Z.leb_le in Hl.
    destruct (10 <=? lower c - 97 + 10) eqn:E; [discriminate|].
    apply Z.leb_gt in E. lia.
Qed.

Lemma ParseUint_bytes s v :
  ParseUint s = (v, None) -> all_bytes float_byte s = true.
Proof.
  destruct s as [|c s]; [discriminate|].
  apply ParseUint_loop_bytes.
Qed.

Lemma ParseUint_loop_range s : forall n v,
  ParseUint_loop s n = (v, Some ErrRange) -> v = maxUint64.
Proof.
  induction s as [|c s IH]; intros n v; simpl; [discriminate|].
  destruct (if (48 <=? byte_val c) && (byte_val c <=? 57) then _ else _)
    as [d|]; [|discriminate].
  destruct (10 <=? d); [discriminate|].
  destruct (maxUint64 / 10 + 1 <=? n); [congruence|].
  destruct (_ || _); [congruence|]. apply IH.
Qed.

Lemma ParseUint_range s v : ParseUint s = (v, Some ErrRange) -> v = maxUint64.
Proof.
  destruct s as [|c s]; [discriminate|]. apply ParseUint_loop_range.
Qed.

Lemma ParseInt_cases s v e :
  ParseInt s = (v, e) ->
  (e = Some ErrSyntax /\ v = 0)
  \/ (e = Some ErrRange /\ (v = 2 ^ 63 - 1 \/ v = - 2 ^ 63))
  \/ (e = None /\ exists c0 rest un,
        s = String c0 rest
        /\ ParseUint (if byte_eq c0 "+" || byte_eq c0 "-" then rest else s) = (un, None)).
Proof.
  unfold ParseInt. destruct s as [|c0 rest].
  { intros H; inversion H; auto. }
  destruct (ParseUint _) as [un err] eqn:HU.
  destruct err as [[|]|].
  - intros H; inversion H; auto.
  - apply ParseUint_range in HU. subst un.
    destruct (byte_eq c0 "-"); simpl; intros H; inversion H; auto.
  - destruct (negb _ && _); [intros H; inversion H; auto|].
    destruct (_ && _); [intros H; inversion H; auto|].
    intros H; inversion H; subst.
    right; right. split; [done|]. eauto.
Qed.

Lemma ParseInt_syntax s v : ParseInt s = (v, Some ErrSyntax) -> v = 0.
Proof.
  intros H. apply ParseInt_cases in H as [[_ ?]|[[? _]|[? _]]]; congruence.
Qed.

Lemma ParseInt_range s v :
  ParseInt s = (v, Some ErrRange) -> v = 2 ^ 63 - 1 \/ v = - 2 ^ 63.
Proof.
  intros H. apply ParseInt_cases in H as [[? _]|[[_ ?]|[? _]]]; congruence || done.
Qed.

Lemma digits_value_ge s : forall n,
  all_bytes is_digit s = true -> 0 <= n -> n <= digits_value s n.
Proof.
  induction s as [|c s IH]; intros n; simpl; [lia|].
  rewrite andb_true_iff. unfold is_digit at 1. rewrite andb_true_iff, !Z.leb_le.
  intros [Hc Hs] Hn. specialize (IH (n * 10 + (byte_val c - 48)) Hs). lia.
Qed.

Lemma ParseUint_loop_digits s : forall n,
  all_bytes is_digit s = true -> 0 <= n ->
  digits_value s n <= maxUint64 ->
  ParseUint_loop s n = (digits_value s n, None).
Proof.
  induction s as [|c s IH]; intros n; simpl; [done|].
  rewrite andb_true_iff. intros [Hc Hs] Hn Hmax.
  pose proof Hc as Hd. unfold is_digit in Hd. rewrite Hd.
  apply andb_true_iff in Hd as [Hlo Hhi]. apply Z.leb_le in Hlo, Hhi.
  pose proof (digits_value_ge s (n * 10 + (byte_val c - 48)) Hs) as Hge.
  assert (Hmax' : maxUint64 = 18446744073709551615) by reflexivity.
  assert (Hdiv : maxUint64 / 10 + 1 = 1844674407370955162) by reflexivity.
  rewrite Hdiv.
  destruct (10 <=? byte_val c - 48) eqn:E1; [apply Z.leb_le in E1; lia|].
  destruct (1844674407370955162 <=? n) eqn:E2; [apply Z.leb_le in E2; lia|].
  apply Z.leb_gt in E2.
  unfold uint64.
  change (2 ^ 64) with 18446744073709551616.
  rewrite (Z.mod_small (n * 10)) by lia.
  rewrite (Z.mod_small (n * 10 + _)) by lia.
  destruct (n * 10 + (byte_val c - 48) <? n * 10) eqn:E3;
    [apply Z.ltb_lt in E3; lia|].
  destruct (maxUint64 <? n * 10 + (byte_val c - 48)) eqn:E4;
    [apply Z.ltb_lt in E4; lia|].
  simpl. apply IH; [assumption|lia|assumption].
Qed.


Lemma ParseInt_negative_decimal c s :
  all_bytes is_digit (String c s) = true ->
  digits_value (String c s) 0 <= 2 ^ 63 ->
  ParseInt (String "-" (String c s)) = (- digits_value (String c s) 0, None).
Proof.
  intros Hd Hv.
  pose proof (digits_value_ge _ 0 Hd ltac:(lia)) as Hge.
  unfold ParseInt. change (byte_eq "-" "-") with true.
  rewrite orb_true_r. unfold ParseUint.
  rewrite ParseUint_loop_digits; [|assumption|lia|change maxUint64 with (2 ^ 64 - 1); lia].
  cbn [negb andb]. cbv iota.
  destruct (2 ^ 63 <? _) eqn:E; [apply Z.ltb_lt in E; lia|].
  f_equal. unfold int64.
  change (2 ^ 64) with 18446744073709551616 in *.
  change (2 ^ 63) with 9223372036854775808 in *.
  destruct (Z.eq_dec (digits_value (String c s) 0) 9223372036854775808) as [->|Hne].
  - reflexivity.
  - set (v := digits_value (String c s) 0) in *.
    rewrite (Z.mod_small (v + 9223372036854775808)) by lia.
    replace (- (v + 9223372036854775808 - 9223372036854775808) + 9223372036854775808)
      with (9223372036854775808 - v) by lia.
    rewrite Z.mod_small by lia. lia.
Qed.

Lemma ParseInt_bytes s v :
  ParseInt s = (v, None) -> all_bytes float_byte s = true.
Proof.
  intros H. apply ParseInt_cases in H as [[? _]|[[? _]|[_ H]]]; try congruence.
  destruct H as (c0 & rest & un & -> & HU).
  apply ParseUint_bytes in HU.
  destruct (byte_eq c0 "+") eqn:Hp; simpl in HU.
  { simpl. rewrite HU. unfold float_byte. cbv zeta. rewrite Hp.
    rewrite !orb_true_r. reflexivity. }
  destruct (byte_eq c0 "-") eqn:Hm; simpl in HU; [|exact HU].
  simpl. rewrite HU. unfold float_byte. cbv zeta. rewrite Hm.
  rewrite !orb_true_r. reflexivity.
Qed.

(** ** The parsing step *)

Section Parsing.
Context {F : Float64}.

Lemma add_logs_nil w : add_logs [] w = w.
Proof. destruct w; unfold add_logs; simpl. by rewrite app_nil_r. Qed.

Lemma add_logs_app l1 l2 w : add_logs l2 (add_logs l1 w) = add_logs (l1 ++ l2) w.
Proof. unfold add_logs; simpl. by rewrite app_assoc. Qed.

Lemma log_add_logs l w : log_add l w = add_logs [l] w.
Proof. reflexivity. Qed.

Ltac run :=
  unfold V2.parseData, V2.parseData_body, V1.parse_inline, V2.logging,
    V2.assign, bind, index, ret, throw, update, gets; simpl.

(** [parseData] always returns, and all it does to the world is log. *)
Lemma parseData_run data w :
  V2.parseData data w = (Done (parsed data), add_logs (parse_log data) w).
Proof.
  unfold parsed, parse_log. run.
  destruct (Split data "|") as [|s0 [|s1 [|s2 [|s3 rest]]]]; simpl;
    rewrite ?log_add_logs, ?add_logs_app; try reflexivity.
  destruct (Split s3 ",") as [|a0 [|a1 [|a2 rest']]]; simpl;
    rewrite ?log_add_logs, ?add_logs_app; reflexivity.
Qed.

(** With four segments and three components every conversion is
    reached: each named result is what its converter returns for its own
    segment, and the error is nil. *)
Lemma parsed_well_formed data s0 s1 s2 s3 rest a0 a1 a2 rest' :
  Split data "|" = s0 :: s1 :: s2 :: s3 :: rest ->
  Split s3 "," = a0 :: a1 :: a2 :: rest' ->
  parsed data =
    {| V2.timestamp := fst (ParseInt s0);
       V2.hum := fst (ParseFloat s1);
       V2.temp := fst (ParseFloat s2);
       V2.x := fst (ParseFloat a0);
       V2.y := fst (ParseFloat a1);
       V2.z := fst (ParseFloat a2);
       V2.err := None |}.
Proof.
  intros E1 E2. unfold parsed. run. rewrite E1. simpl. rewrite E2. reflexivity.
Qed.

(** With fewer segments or fewer components an index expression panics,
    and the deferred function turns the panic into the parse error. *)
Lemma parsed_malformed data :
  (length (Split data "|") < 4)%nat
  \/ (exists s3, Split data "|" !! 3%nat = Some s3
                 /\ (length (Split s3 ",") < 3)%nat) ->
  V2.err (parsed data) = Some (errors_New "error parsing data").
Proof.
  unfold parsed. run.
  destruct (Split data "|") as [|s0 [|s1 [|s2 [|s3 rest]]]]; simpl;
    try reflexivity.
  intros [H|(s & Hs & H)]; [lia|].
  inversion Hs; subst s.
  destruct (Split s3 ",") as [|a0 [|a1 [|a2 rest']]]; simpl in *;
    try reflexivity.
  lia.
Qed.

Lemma structure_cases (data : string) :
  ((length (Split data "|") < 4)%nat
   \/ (exists s3, Split data "|" !! 3%nat = Some s3
                  /\ (length (Split s3 ",") < 3)%nat))
  \/ (exists s0 s1 s2 s3 rest a0 a1 a2 rest',
        Split data "|" = s0 :: s1 :: s2 :: s3 :: rest
        /\ Split s3 "," = a0 :: a1 :: a2 :: rest').
Proof.
  destruct (Split data "|") as [|s0 [|s1 [|s2 [|s3 rest]]]] eqn:E1;
    simpl; try (left; left; lia).
  destruct (Split s3 ",") as [|a0 [|a1 [|a2 rest']]] eqn:E2;
    try (left; right; exists s3; rewrite E2; simpl; split; [done|lia]).
  right. repeat eexists. exact E2.
Qed.

Lemma well_formed_shape (data s3 : string) :
  Split data "|" !! 3%nat = Some s3 ->
  (3 <= length (Split s3 ","))%nat ->
  exists s0 s1 s2 rest a0 a1 a2 rest',
    Split data "|" = s0 :: s1 :: s2 :: s3 :: rest
    /\ Split s3 "," = a0 :: a1 :: a2 :: rest'.
Proof.
  intros H3 Hacc.
  destruct (Split data "|") as [|s0 [|s1 [|s2 [|s3' rest]]]]; try discriminate.
  inversion H3; subst s3'.
  destruct (Split s3 ",") as [|a0 [|a1 [|a2 rest']]]; simpl in Hacc; try lia.
  repeat eexists.
Qed.

(** The inline parsing of the first revision on a well-formed payload. *)
Lemma parse_inline_well_formed {S} data s0 s1 s2 s3 rest a0 a1 a2 rest' (s : S) :
  Split data "|" = s0 :: s1 :: s2 :: s3 :: rest ->
  Split s3 "," = a0 :: a1 :: a2 :: rest' ->
  V1.parse_inline data s =
    (Done (fst (ParseInt s0), fst (ParseFloat s1), fst (ParseFloat s2),
           fst (ParseFloat a0), fst (ParseFloat a1), fst (ParseFloat a2)), s).
Proof.
  intros E1 E2. run. rewrite E1. simpl. rewrite E2. reflexivity.
Qed.

(** The inline parsing of the first revision on a malformed payload: the
    panic leaves the parsing step. *)
Lemma parse_inline_malformed {S} data (s : S) :
  (length (Split data "|") < 4)%nat
  \/ (exists s3, Split data "|" !! 3%nat = Some s3
                 /\ (length (Split s3 ",") < 3)%nat) ->
  exists p, V1.parse_inline data s = (Panicked p, s).
Proof.
  run.
  destruct (Split data "|") as [|s0 [|s1 [|s2 [|s3 rest]]]]; simpl;
    try (intros _; eexists; reflexivity).
  intros [H|(s' & Hs & H)]; [lia|].
  inversion Hs; subst s'.
  destruct (Split s3 ",") as [|a0 [|a1 [|a2 rest']]]; simpl in *;
    try (eexists; reflexivity).
  lia.
Qed.
End Parsing.

Section ParsingClaims.
Context {F : Float64}.

(** The second revision: a payload with fewer than four segments, or
    fewer than three components in the fourth, makes [parseData] return
    the error [error parsing data]; it returns whatever the payload. *)
Lemma parseData_rejects_malformed data w :
  (length (Split data "|") < 4)%nat
  \/ (exists s3, Split data "|" !! 3%nat = Some s3
                 /\ (length (Split s3 ",") < 3)%nat) ->
  exists res w',
    V2.parseData data w = (Done res, w')
    /\ V2.err res = Some (errors_New "error parsing data").
Proof.
  intros H. rewrite parseData_run. do 2 eexists. split; [reflexivity|].
  by apply parsed_malformed.
Qed.

(** C2. A payload [ts|h|t|x,y,z] whose timestamp [ParseInt] accepts and
    whose five other fields [ParseFloat] accepts makes [parseData] return
    exactly the six converted values and a nil error. *)
Theorem C2_parse_round_trip (ts h t x y z : string) (n : Z)
    (vh vt vx vy vz : float64) (w : World) :
  ParseInt ts = (n, None) ->
  ParseFloat h = (vh, None) ->
  ParseFloat t = (vt, None) ->
  ParseFloat x = (vx, None) ->
  ParseFloat y = (vy, None) ->
  ParseFloat z = (vz, None) ->
  fst (V2.parseData
         (ts +:+ "|" +:+ h +:+ "|" +:+ t +:+ "|" +:+ x +:+ "," +:+ y +:+ "," +:+ z) w)
  = Done {| V2.timestamp := n; V2.hum := vh; V2.temp := vt;
            V2.x := vx; V2.y := vy; V2.z := vz; V2.err := None |}.
Proof.
  intros Hts Hh Ht Hx Hy Hz.
  pose proof (ParseInt_bytes _ _ Hts) as Bts.
  pose proof (ParseFloat_bytes _ _ Hh) as Bh.
  pose proof (ParseFloat_bytes _ _ Ht) as Bt.
  pose proof (ParseFloat_bytes _ _ Hx) as Bx.
  pose proof (ParseFloat_bytes _ _ Hy) as By.
  pose proof (ParseFloat_bytes _ _ Hz) as Bz.
  assert (Hpipe : forall s, all_bytes float_byte s = true -> no_sep "|" s = true)
    by (intros s; by apply float_byte_no_sep).
  assert (Hcomma : forall s, all_bytes float_byte s = true -> no_sep "," s = true)
    by (intros s; by apply float_byte_no_sep).
  rewrite parseData_run. simpl. f_equal.
  erewrite parsed_well_formed.
  - rewrite Hts, Hh, Ht, Hx, Hy, Hz. reflexivity.
  - rewrite !append_byte.
    rewrite !Split_app by auto.
    rewrite Split_no_sep; [reflexivity|].
    unfold no_sep.
    repeat (rewrite all_bytes_app;
            cbn [all_bytes byte_eq Ascii.eqb Bool.eqb negb andb]).
    fold (no_sep "|" x) (no_sep "|" y) (no_sep "|" z).
    rewrite !Hpipe by assumption. reflexivity.
  - rewrite !Split_app by auto.
    rewrite Split_no_sep by auto. reflexivity.
Qed.

(** C3, as the code has it.  With four segments and three components
    [parseData] returns a nil error and each field is what its converter
    returns for its own segment, whatever the other segments are.  A
    field the converter rejects as no number at all (syntax error) is
    zero; a timestamp it rejects as out of range is the nearest bound of
    [int64], not zero. *)
Theorem C3_conversion_errors_dropped
    (data s0 s1 s2 s3 a0 a1 a2 : string) (rest rest' : list string) (w : World) :
  Split data "|" = s0 :: s1 :: s2 :: s3 :: rest ->
  Split s3 "," = a0 :: a1 :: a2 :: rest' ->
  exists res w',
    V2.parseData data w = (Done res, w')
    /\ V2.err res = None
    /\ V2.timestamp res = fst (ParseInt s0)
    /\ V2.hum res = fst (ParseFloat s1)
    /\ V2.temp res = fst (ParseFloat s2)
    /\ V2.x res = fst (ParseFloat a0)
    /\ V2.y res = fst (ParseFloat a1)
    /\ V2.z res = fst (ParseFloat a2)
    /\ (snd (ParseInt s0) = Some ErrSyntax -> V2.timestamp res = 0)
    /\ (snd (ParseInt s0) = Some ErrRange ->
        V2.timestamp res = 2 ^ 63 - 1 \/ V2.timestamp res = - 2 ^ 63)
    /\ (snd (ParseFloat s1) = Some ErrSyntax -> V2.hum res = float64_zero)
    /\ (snd (ParseFloat s2) = Some ErrSyntax -> V2.temp res = float64_zero)
    /\ (snd (ParseFloat a0) = Some ErrSyntax -> V2.x res = float64_zero)
    /\ (snd (ParseFloat a1) = Some ErrSyntax -> V2.y res = float64_zero)
    /\ (snd (ParseFloat a2) = Some ErrSyntax -> V2.z res = float64_zero).
Proof.
  intros E1 E2. rewrite parseData_run.
  rewrite (parsed_well_formed _ _ _ _ _ _ _ _ _ _ E1 E2).
  do 2 eexists. split; [reflexivity|]. simpl.
  assert (Hf : forall s, snd (ParseFloat s) = Some ErrSyntax ->
                         fst (ParseFloat s) = float64_zero).
  { intros s H. destruct (ParseFloat s) as [v e] eqn:E. simpl in *. subst e.
    eapply ParseFloat_syntax; eauto. }
  repeat split; auto.
  - intros H. destruct (ParseInt s0) as [v e] eqn:E. simpl in *. subst e.
    eapply ParseInt_syntax; eauto.
  - intros H. destruct (ParseInt s0) as [v e] eqn:E. simpl in *. subst e.
    eapply ParseInt_range; eauto.
Qed.

(** C10. On a payload with at least four segments and at least three
    components in the fourth, the inline parsing of the first revision
    and [parseData] of the second compute the same six values. *)
Theorem C10_inline_parse_agrees {S : Type} (data s3 : string) (s : S) (w : World) :
  Split data "|" !! 3%nat = Some s3 ->
  (3 <= length (Split s3 ","))%nat ->
  exists ts h t x y z,
    V1.parse_inline data s = (Done (ts, h, t, x, y, z), s)
    /\ fst (V2.parseData data w)
       = Done {| V2.timestamp := ts; V2.hum := h; V2.temp := t;
                 V2.x := x; V2.y := y; V2.z := z; V2.err := None |}.
Proof.
  intros H3 Hacc.
  destruct (well_formed_shape _ _ H3 Hacc)
    as (s0 & s1 & s2 & rest & a0 & a1 & a2 & rest' & E1 & E2).
  do 6 eexists. split.
  - eapply parse_inline_well_formed; eauto.
  - rewrite parseData_run. simpl. f_equal.
    eapply parsed_well_formed; eauto.
Qed.
End ParsingClaims.

(** ** The handlers *)

Section HandlerClaims.
Context {F : Float64}.

Lemma form_fields_run r w :
  V2.form_fields r w = (submitted r, add_logs (form_log r) w).
Proof.
  unfold submitted, form_log, V2.form_fields, log_Printf, bind, deref, index,
    ret, throw, update.
  destruct (ParseForm r) as [e|]; simpl; [|by rewrite add_logs_nil].
  destruct (Body_nil r); simpl; [reflexivity|].
  destruct (MultipartForm r) as [mf|]; simpl; [|by rewrite add_logs_nil].
  destruct (values_of (Value mf) "data" !! 0%nat); simpl;
    [|by rewrite add_logs_nil].
  destruct (values_of (Value mf) "node" !! 0%nat); simpl;
    by rewrite add_logs_nil.
Qed.

Ltac enter_ingestion H :=
  let Hp := fresh "Hp" in
  let Hm := fresh "Hm" in
  let Hc := fresh "Hc" in
  destruct H as (Hp & Hm & Hc);
  unfold V2.postSensorData, V1.postSensorData, writeApi_of;
  rewrite Hp, Hm, Hc;
  change (String.eqb "/api" "/api") with true;
  change (String.eqb "POST" "POST") with true;
  cbn [negb]; cbv iota.

(** The second revision answers a payload that fails parsing with 400
    and a plain-text body, and does not call the write API. *)
Lemma V2_bad_payload_400 r api data node e :
  ingestion api r ->
  submitted r = Done (Some (data, node)) ->
  V2.err (parsed (Replace replacer data)) = Some e ->
  response (V2.postSensorData r World0)
    = Some (StatusBadRequest, "400 - Bad request data")
  /\ writes (snd (V2.postSensorData r World0)) = [].
Proof.
  intros Hin Hsub Herr. enter_ingestion Hin.
  unfold bind, ret, log_Println, log_Printf, update, WriteHeader, Write.
  cbv beta iota.
  rewrite form_fields_run, Hsub. cbv iota beta.
  rewrite parseData_run, Herr. simpl. auto.
Qed.

Lemma air_point_record node res :
  air_point node (V2.timestamp res) (V2.hum res) (V2.temp res)
  = air_record node res.
Proof. reflexivity. Qed.

Lemma accelerometer_point_record node res :
  accelerometer_point node (V2.timestamp res) (V2.x res) (V2.y res) (V2.z res)
  = accelerometer_record node res.
Proof. reflexivity. Qed.

(** The second revision on a submission that parses: one call of
    [WritePoint] with the two records, status 200 and the JSON body,
    whatever the write API answers; its error only adds a log line. *)
Lemma V2_accepted_run r api data node :
  ingestion api r ->
  submitted r = Done (Some (data, node)) ->
  V2.err (parsed (Replace replacer data)) = None ->
  let res := parsed (Replace replacer data) in
  let ps := [air_record (node_tag node) res;
             accelerometer_record (node_tag node) res] in
  V2.postSensorData r World0 =
    (Done tt,
     {| status := Some StatusOK; headers := []; body := status_ok;
        log := Println [a_header (Header r)] :: form_log r
               ++ parse_log (Replace replacer data) ++ write_log api ps;
        writes := [ps] |}).
Proof.
  intros Hin Hsub Herr res ps. enter_ingestion Hin.
  unfold bind, ret, log_Println, log_Printf, WriteHeader, Write, WritePoint, update.
  cbv beta iota.
  rewrite form_fields_run, Hsub. cbv iota beta.
  rewrite parseData_run, Herr. cbv iota beta.
  rewrite air_point_record, accelerometer_point_record.
  fold (node_tag node). fold res. fold ps.
  unfold write_log.
  destruct (WritePoint_result api ps); simpl;
    rewrite <- ?app_assoc, ?app_nil_r; reflexivity.
Qed.

(** Every run of the second revision's handler either makes no write
    call, or is an ingestion request whose submission parsed. *)
Lemma V2_writes_cases r :
  writes (snd (V2.postSensorData r World0)) = []
  \/ exists api data node,
       ingestion api r
       /\ submitted r = Done (Some (data, node))
       /\ V2.err (parsed (Replace replacer data)) = None.
Proof.
  destruct (String.eqb (URL_Path r) "/api") eqn:Hpath;
    [|left; unfold V2.postSensorData; rewrite Hpath; reflexivity].
  destruct (String.eqb (Method r) "POST") eqn:Hmeth;
    [|left; unfold V2.postSensorData; rewrite Hpath, Hmeth; reflexivity].
  apply String.eqb_eq in Hpath, Hmeth.
  destruct (Context r "writeApi") as [[|api]|] eqn:Hctx;
    try (left; unfold V2.postSensorData, writeApi_of;
         rewrite Hpath, Hmeth, Hctx; reflexivity).
  assert (Hin : ingestion api r) by done.
  destruct (submitted r) as [[[data node]|]|p] eqn:Hsub.
  - destruct (V2.err (parsed (Replace replacer data))) as [e|] eqn:Herr.
    + left. eapply V2_bad_payload_400; eauto.
    + right. eauto 10.
  - left. enter_ingestion Hin.
    unfold bind, ret, log_Println, update. cbv beta iota.
    rewrite form_fields_run, Hsub. reflexivity.
  - left. enter_ingestion Hin.
    unfold bind, ret, log_Println, update. cbv beta iota.
    rewrite form_fields_run, Hsub. reflexivity.
Qed.

(** The fields of a submission: from the form whenever [ParseForm]
    succeeds, whatever the multipart form holds. *)
Lemma submitted_form r :
  ParseForm r = None ->
  submitted r = Done (Some (FormValue r "data", FormValue r "node")).
Proof. intros H. unfold submitted, V2.form_fields. rewrite H. reflexivity. Qed.

(** When [ParseForm] fails on a request without body, the handler
    returns at once. *)
Lemma submitted_no_body r e :
  ParseForm r = Some e -> Body_nil r = true -> submitted r = Done None.
Proof.
  intros H1 H2. unfold submitted, V2.form_fields. rewrite H1, H2. reflexivity.
Qed.

(** When [ParseForm] fails on a request with a body, the fields are the
    first values of [data] and [node] in the multipart form. *)
Lemma submitted_multipart r e mf data ds node ns :
  ParseForm r = Some e -> Body_nil r = false ->
  MultipartForm r = Some mf ->
  values_of (Value mf) "data" = data :: ds ->
  values_of (Value mf) "node" = node :: ns ->
  submitted r = Done (Some (data, node)).
Proof.
  intros H1 H2 H3 H4 H5.
  unfold submitted, V2.form_fields, bind, deref, index, ret.
  rewrite H1, H2, H3. simpl. rewrite H4. simpl. rewrite H5. reflexivity.
Qed.

(** A multipart form without [node]: the index expression panics. *)
Lemma submitted_multipart_no_node r e mf data ds :
  ParseForm r = Some e -> Body_nil r = false ->
  MultipartForm r = Some mf ->
  values_of (Value mf) "data" = data :: ds ->
  values_of (Value mf) "node" = [] ->
  submitted r = Panicked (IndexOutOfRange 0 0).
Proof.
  intros H1 H2 H3 H4 H5.
  unfold submitted, V2.form_fields, bind, deref, index, ret, throw.
  rewrite H1, H2, H3. simpl. rewrite H4. simpl. rewrite H5. reflexivity.
Qed.

Lemma FormValue_absent r key : Form r !! key = None -> FormValue r key = "".
Proof. intros H. unfold FormValue. rewrite H. reflexivity. Qed.

(** A blank node, or one that [FormValue] finds absent, is tagged
    [unknown] on both records of an accepted submission. *)
Lemma V2_default_node r api data :
  ingestion api r ->
  submitted r = Done (Some (data, "")) ->
  V2.err (parsed (Replace replacer data)) = None ->
  exists p1 p2,
    writes (snd (V2.postSensorData r World0)) = [[p1; p2]]
    /\ tags p1 = [("location", "unknown")]
    /\ tags p2 = [("location", "unknown")].
Proof.
  intros Hin Hsub Herr.
  rewrite (V2_accepted_run _ _ _ _ Hin Hsub Herr).
  do 2 eexists. split; [reflexivity|]. split; reflexivity.
Qed.

(** When the handler panics nothing is answered and nothing written. *)
Lemma V2_panicked_run r api p :
  ingestion api r ->
  submitted r = Panicked p ->
  V2.postSensorData r World0
  = (Panicked p, add_logs (Println [a_header (Header r)] :: form_log r) World0).
Proof.
  intros Hin Hsub. enter_ingestion Hin.
  unfold bind, ret, log_Println, update. cbv beta iota.
  rewrite form_fields_run, Hsub. reflexivity.
Qed.

(** The first revision on a malformed payload: the index panic leaves
    the handler before anything is logged, written or answered. *)
Lemma V1_malformed_run r api :
  ingestion api r ->
  ParseForm r = None ->
  (length (Split (Replace replacer (FormValue r "data")) "|") < 4)%nat
  \/ (exists s3,
        Split (Replace replacer (FormValue r "data")) "|" !! 3%nat = Some s3
        /\ (length (Split s3 ",") < 3)%nat) ->
  exists p, V1.postSensorData r World0 = (Panicked p, World0).
Proof.
  intros Hin Hform Hbad. enter_ingestion Hin. rewrite Hform.
  unfold bind at 1. unfold ret at 1. cbv beta iota.
  unfold bind at 1.
  destruct (parse_inline_malformed _ World0 Hbad) as [p Hpanic].
  rewrite Hpanic. eauto.
Qed.

(** The first revision on a submission that parses: the same write call
    and the same answer as the second. *)
Lemma V1_accepted_run r api s0 s1 s2 s3 rest a0 a1 a2 rest' :
  ingestion api r ->
  ParseForm r = None ->
  Split (Replace replacer (FormValue r "data")) "|" = s0 :: s1 :: s2 :: s3 :: rest ->
  Split s3 "," = a0 :: a1 :: a2 :: rest' ->
  exists l,
    V1.postSensorData r World0 =
      (Done tt,
       {| status := Some StatusOK; headers := []; body := status_ok;
          log := l;
          writes :=
            [[air_record (node_tag (FormValue r "node"))
                (parsed (Replace replacer (FormValue r "data")));
              accelerometer_record (node_tag (FormValue r "node"))
                (parsed (Replace replacer (FormValue r "data")))]] |}).
Proof.
  intros Hin Hform E1 E2. enter_ingestion Hin. rewrite Hform.
  rewrite (parsed_well_formed _ _ _ _ _ _ _ _ _ _ E1 E2).
  unfold bind at 1. unfold ret at 1. cbv beta iota.
  unfold bind at 1.
  rewrite (parse_inline_well_formed _ _ _ _ _ _ _ _ _ _ World0 E1 E2).
  cbv beta iota.
  unfold bind, ret, log_Println, log_Printf, WriteHeader, Write, WritePoint, update.
  cbv beta iota.
  destruct (WritePoint_result api _); eexists; reflexivity.
Qed.

(** In the first revision too a blank or absent node is tagged
    [unknown]. *)
Lemma V1_default_node r api s0 s1 s2 s3 rest a0 a1 a2 rest' :
  ingestion api r ->
  ParseForm r = None ->
  FormValue r "node" = "" ->
  Split (Replace replacer (FormValue r "data")) "|" = s0 :: s1 :: s2 :: s3 :: rest ->
  Split s3 "," = a0 :: a1 :: a2 :: rest' ->
  exists p1 p2,
    writes (snd (V1.postSensorData r World0)) = [[p1; p2]]
    /\ tags p1 = [("location", "unknown")]
    /\ tags p2 = [("location", "unknown")].
Proof.
  intros Hin Hform Hnode E1 E2.
  destruct (V1_accepted_run _ _ _ _ _ _ _ _ _ _ _ Hin Hform E1 E2) as [l ->].
  rewrite Hnode. do 2 eexists. repeat split.
Qed.
End HandlerClaims.

Example submitted_example :
  submitted (F := DecimalFloat64)
    (form_request "POST" "/api" accepting_api [("data", [payload])])
  = Done (Some (payload, "")).
Proof. vm_compute. reflexivity. Qed.

Example parsed_example :
  parsed (F := DecimalFloat64) payload
  = {| V2.timestamp := 1700000000;
       V2.hum := dec 552 (-1);
       V2.temp := dec 214 (-1);
       V2.x := dec 1 (-2);
       V2.y := dec 2 (-2);
       V2.z := dec 981 (-2);
       V2.err := None |}.
Proof. vm_compute. reflexivity. Qed.

(** ** The claims about malformed payloads *)

Section MalformedClaims.
Context {F : Float64}.

(** C1. On a sanitized payload with fewer than four segments, or fewer
    than three components in the fourth, [parseData] of the second
    revision returns the parse error and no panic leaves it; on the same
    payload the inline parsing of the first revision panics, and the
    panic leaves the parsing step. *)
Theorem C1_malformed_payload {S : Type} (data : string) (s : S) (w : World) :
  (length (Split data "|") < 4)%nat
  \/ (exists s3, Split data "|" !! 3%nat = Some s3
                 /\ (length (Split s3 ",") < 3)%nat) ->
  (exists res w',
     V2.parseData data w = (Done res, w')
     /\ V2.err res = Some (errors_New "error parsing data"))
  /\ (exists p, V1.parse_inline data s = (Panicked p, s)).
Proof.
  intros H. split.
  - by apply parseData_rejects_malformed.
  - by apply parse_inline_malformed.
Qed.

(** The second revision answers every submission with a malformed
    payload with 400 and makes no write call. *)
Lemma V2_malformed_400 r api data node :
  ingestion api r ->
  submitted r = Done (Some (data, node)) ->
  (length (Split (Replace replacer data) "|") < 4)%nat
  \/ (exists s3, Split (Replace replacer data) "|" !! 3%nat = Some s3
                 /\ (length (Split s3 ",") < 3)%nat) ->
  response (V2.postSensorData r World0)
    = Some (StatusBadRequest, "400 - Bad request data")
  /\ writes (snd (V2.postSensorData r World0)) = [].
Proof.
  intros Hin Hsub Hbad. eapply V2_bad_payload_400; eauto.
  by apply parsed_malformed.
Qed.

(** C4, on the first revision.  An ingestion request whose sanitized
    payload is malformed gets no 400 there: the handler panics, so the
    server sends no response; no write call is made. *)
Theorem C4_first_revision_no_400 (r : Request) (api : WriteAPIBlocking) :
  ingestion api r ->
  ParseForm r = None ->
  (length (Split (Replace replacer (FormValue r "data")) "|") < 4)%nat
  \/ (exists s3,
        Split (Replace replacer (FormValue r "data")) "|" !! 3%nat = Some s3
        /\ (length (Split s3 ",") < 3)%nat) ->
  response (V1.postSensorData r World0) = None
  /\ writes (snd (V1.postSensorData r World0)) = [].
Proof.
  intros Hin Hform Hbad.
  destruct (V1_malformed_run _ _ Hin Hform Hbad) as [p ->]. done.
Qed.

(** C5, on the multipart path of the second revision.  When [ParseForm]
    fails, the body is present and the multipart form has [data] but no
    [node], the handler panics on the index expression: no record is
    built, nothing is written and nothing answered. *)
Theorem C5_multipart_without_node (r : Request) (api : WriteAPIBlocking)
    (e : error) (mf : multipart_Form) (data : string) (ds : list string) :
  ingestion api r ->
  ParseForm r = Some e ->
  Body_nil r = false ->
  MultipartForm r = Some mf ->
  values_of (Value mf) "data" = data :: ds ->
  values_of (Value mf) "node" = [] ->
  fst (V2.postSensorData r World0) = Panicked (IndexOutOfRange 0 0)
  /\ response (V2.postSensorData r World0) = None
  /\ writes (snd (V2.postSensorData r World0)) = [].
Proof.
  intros Hin H1 H2 H3 H4 H5.
  rewrite (V2_panicked_run _ _ _ Hin
             (submitted_multipart_no_node _ _ _ _ _ H1 H2 H3 H4 H5)).
  done.
Qed.
End MalformedClaims.

(** ** The claims about accepted submissions and routing *)

Section AcceptedClaims.
Context {F : Float64}.


(** C7. A run of the handler makes no write call or one call with two
    records.  A submission that fails parsing makes none; one that
    parses makes one call with the [air] record (humidity, temperature,
    timestamp) and the [accelerometer] record (x, y, z, timestamp), both
    tagged with the node. *)
Theorem C7_zero_or_two_records (r : Request) :
  (writes (snd (V2.postSensorData r World0)) = []
   \/ exists p1 p2, writes (snd (V2.postSensorData r World0)) = [[p1; p2]])
  /\ (forall api data node e,
        ingestion api r ->
        submitted r = Done (Some (data, node)) ->
        V2.err (parsed (Replace replacer data)) = Some e ->
        writes (snd (V2.postSensorData r World0)) = [])
  /\ (forall api data node,
        ingestion api r ->
        submitted r = Done (Some (data, node)) ->
        V2.err (parsed (Replace replacer data)) = None ->
        writes (snd (V2.postSensorData r World0))
        = [[air_record (node_tag node) (parsed (Replace replacer data));
            accelerometer_record (node_tag node) (parsed (Replace replacer data))]]).
Proof.
  split; [|split].
  - destruct (V2_writes_cases r) as [H|(api & data & node & Hin & Hsub & Herr)];
      [by left|right].
    rewrite (V2_accepted_run _ _ _ _ Hin Hsub Herr). eauto.
  - intros api data node e Hin Hsub Herr.
    eapply V2_bad_payload_400; eauto.
  - intros api data node Hin Hsub Herr.
    by rewrite (V2_accepted_run _ _ _ _ Hin Hsub Herr).
Qed.


End AcceptedClaims.

(** ** Further properties of the parsing step *)

Lemma Split_append sep a b :
  Split (a +:+ String sep b) sep = (Split a sep ++ Split b sep)%list.
Proof.
  induction a as [|c a IH]; simpl.
  - unfold byte_eq. rewrite Ascii.eqb_refl. reflexivity.
  - rewrite IH. destruct (byte_eq c sep); [reflexivity|].
    pose proof (Split_length_pos a sep) as Hpos.
    destruct (Split a sep) as [|seg segs]; simpl in *; [lia|reflexivity].
Qed.

Lemma Split_append_last sep a b :
  no_sep sep b = true ->
  Split (a +:+ b) sep
  = (List.removelast (Split a sep) ++ [List.last (Split a sep) "" +:+ b])%list.
Proof.
  intros Hb. induction a as [|c a IH].
  - simpl. by apply Split_no_sep.
  - change (String c a +:+ b) with (String c (a +:+ b)).
    simpl Split. rewrite IH.
    pose proof (Split_length_pos a sep) as Hpos.
    destruct (Split a sep) as [|seg [|seg' segs]]; simpl in Hpos; [lia| |];
      destruct (byte_eq c sep); reflexivity.
Qed.

Lemma Split_stripped_byte c s :
  stripped c = true ->
  length (Split (String c s) "|") = length (Split s "|")
  /\ length (Split (String c s) ",") = length (Split s ",").
Proof.
  intros Hc.
  assert (Hp : byte_eq c "|" = false).
  { unfold byte_eq. destruct (Ascii.eqb c "|") eqn:E; [|done].
    apply Ascii.eqb_eq in E. subst c. discriminate. }
  assert (Hm : byte_eq c "," = false).
  { unfold byte_eq. destruct (Ascii.eqb c ",") eqn:E; [|done].
    apply Ascii.eqb_eq in E. subst c. discriminate. }
  simpl. rewrite Hp, Hm.
  pose proof (Split_length_pos s "|").
  pose proof (Split_length_pos s ",").
  destruct (Split s "|"), (Split s ","); simpl in *; lia.
Qed.

Lemma Split_cons_length c s sep :
  length (Split (String c s) sep)
  = if byte_eq c sep then S (length (Split s sep)) else length (Split s sep).
Proof.
  simpl. destruct (byte_eq c sep); [reflexivity|].
  pose proof (Split_length_pos s sep).
  destruct (Split s sep); simpl in *; [lia|reflexivity].
Qed.

(** X6. Sanitizing keeps exactly the bytes other than space, tab, newline,
    carriage return and NUL, in their order, and so leaves the number of
    [|]-segments of a payload as it was. *)
Theorem sanitize_keeps_structure (s : string) :
  Replace replacer s = keep (fun c => negb (stripped c)) s
  /\ length (Split (Replace replacer s) "|") = length (Split s "|").
Proof.
  split.
  - induction s as [|c s IH]; [reflexivity|].
    rewrite Replace_replacer_cons. simpl. rewrite <- IH.
    destruct (stripped c); reflexivity.
  - induction s as [|c s IH]; [reflexivity|].
    rewrite Replace_replacer_cons.
    destruct (stripped c) eqn:Hc.
    + rewrite IH. symmetry. by apply Split_stripped_byte.
    + rewrite !Split_cons_length, IH. reflexivity.
Qed.



Ltac run_parse :=
  unfold V2.parseData, V2.parseData_body, V1.parse_inline, V2.logging,
    V2.assign, bind, index, ret, throw, update, gets; simpl.

Section ParsingProperties.
Context {F : Float64}.

(** X1. A payload with three segments, so without the accelerometer
    field, makes [parseData] return the parse error together with the
    three values it had already converted; the accelerometer values stay
    zero. *)
Theorem parseData_keeps_converted (data s0 s1 s2 : string) :
  Split data "|" = [s0; s1; s2] ->
  parsed data
  = {| V2.timestamp := fst (ParseInt s0);
       V2.hum := fst (ParseFloat s1);
       V2.temp := fst (ParseFloat s2);
       V2.x := float64_zero; V2.y := float64_zero; V2.z := float64_zero;
       V2.err := Some (errors_New "error parsing data") |}.
Proof.
  intros E. unfold parsed. run_parse. rewrite E. reflexivity.
Qed.

(** X2. Whatever the payload, [parseData] returns, and it leaves the
    response and the write calls as they were: it only adds log lines, of
    which the first shows the payload it was given. *)
Theorem parseData_only_logs (data : string) (w : World) :
  exists res l ls,
    V2.parseData data w = (Done res, add_logs (l :: ls) w)
    /\ l = Printf "incoming data: %s\n" [a_string data]
    /\ status (add_logs (l :: ls) w) = status w
    /\ body (add_logs (l :: ls) w) = body w
    /\ writes (add_logs (l :: ls) w) = writes w.
Proof.
  rewrite parseData_run. unfold parse_log. run_parse.
  destruct (Split data "|") as [|s0 [|s1 [|s2 [|s3 rest]]]]; simpl;
    try (do 3 eexists; repeat split; reflexivity).
  destruct (Split s3 ",") as [|a0 [|a1 [|a2 rest']]]; simpl;
    do 3 eexists; repeat split; reflexivity.
Qed.

(** X3. Segments after the fourth are ignored: a well-formed payload
    followed by [|] and anything parses to the same results. *)
Theorem parseData_ignores_trailing_segments (data s3 junk : string) :
  Split data "|" !! 3%nat = Some s3 ->
  (3 <= length (Split s3 ","))%nat ->
  parsed (data +:+ String "|" junk) = parsed data
  /\ V2.err (parsed data) = None.
Proof.
  intros H3 Hacc.
  destruct (well_formed_shape _ _ H3 Hacc)
    as (s0 & s1 & s2 & rest & a0 & a1 & a2 & rest' & E1 & E2).
  rewrite (parsed_well_formed _ _ _ _ _ _ _ _ _ _ E1 E2).
  split; [|reflexivity].
  eapply parsed_well_formed; [|exact E2].
  rewrite Split_append, E1. reflexivity.
Qed.

(** X4. Components after the third are ignored as well: a payload of
    exactly four segments followed by [,] and anything without [|] parses
    to the same results. *)
Theorem parseData_ignores_trailing_components (data s0 s1 s2 s3 junk : string) :
  Split data "|" = [s0; s1; s2; s3] ->
  (3 <= length (Split s3 ","))%nat ->
  no_sep "|" junk = true ->
  parsed (data +:+ String "," junk) = parsed data.
Proof.
  intros E1 Hacc Hjunk.
  destruct (Split s3 ",") as [|a0 [|a1 [|a2 rest']]] eqn:E2;
    simpl in Hacc; try lia.
  rewrite (parsed_well_formed _ _ _ _ _ _ _ _ _ _ E1 E2).
  eapply parsed_well_formed.
  - rewrite Split_append_last, E1; [reflexivity|].
    unfold no_sep in *. simpl. exact Hjunk.
  - simpl. rewrite Split_append, E2. reflexivity.
Qed.

End ParsingProperties.

(** ** Further properties of the handlers *)

Ltac enter_route Hin :=
  let Hp := fresh "Hp" in
  let Hm := fresh "Hm" in
  let Hc := fresh "Hc" in
  destruct Hin as (Hp & Hm & Hc);
  unfold V2.postSensorData, V1.postSensorData, writeApi_of;
  rewrite Hp, Hm, Hc;
  change (String.eqb "/api" "/api") with true;
  change (String.eqb "POST" "POST") with true;
  cbn [negb]; cbv iota.

Section HandlerProperties.
Context {F : Float64}.

Lemma response_Done (res : outcome unit * World) x :
  response res = Some x -> fst res = Done tt.
Proof. destruct res as [[[]|p] w]; simpl; [done|discriminate]. Qed.

Lemma V2_returned_run r api :
  ingestion api r ->
  submitted r = Done None ->
  V2.postSensorData r World0
  = (Done tt, add_logs (Println [a_header (Header r)] :: form_log r) World0).
Proof.
  intros Hin Hsub. enter_route Hin.
  unfold bind, ret, log_Println, update. cbv beta iota.
  rewrite form_fields_run, Hsub. reflexivity.
Qed.

Lemma submitted_cases r :
  match submitted r with
  | Done (Some (data, node)) =>
      (ParseForm r = None /\ data = FormValue r "data" /\ node = FormValue r "node")
      \/ (ParseForm r <> None /\ Body_nil r = false
          /\ exists mf ds ns,
               MultipartForm r = Some mf
               /\ values_of (Value mf) "data" = data :: ds
               /\ values_of (Value mf) "node" = node :: ns)
  | Done None => ParseForm r <> None /\ Body_nil r = true
  | Panicked p =>
      ParseForm r <> None /\ Body_nil r = false
      /\ (p = NilDereference \/ p = IndexOutOfRange 0 0)
  end.
Proof.
  unfold submitted, V2.form_fields, bind, deref, index, ret, throw, log_Printf, update.
  destruct (ParseForm r) as [e|]; simpl; [|left; done].
  destruct (Body_nil r); simpl; [done|].
  destruct (MultipartForm r) as [mf|]; simpl; [|split; [done|split; [done|by left]]].
  destruct (values_of (Value mf) "data") as [|d ds] eqn:Ed; simpl;
    [split; [done|split; [done|by right]]|].
  destruct (values_of (Value mf) "node") as [|n ns] eqn:En; simpl;
    [split; [done|split; [done|by right]]|].
  right. split; [done|split; [done|]]. eauto 10.
Qed.

(** X7. The welcome handler always answers, and does nothing else: it
    logs nothing and makes no write call.  Its 404 answers are marked as
    plain text; the welcome answer sets no header. *)
Theorem getRoot_effects (r : Request) (w : World) :
  exists w',
    getRoot r w = (Done tt, w')
    /\ log w' = log w
    /\ writes w' = writes w
    /\ headers w'
       = if String.eqb (URL_Path r) "/" && String.eqb (Method r) "GET"
         then headers w
         else upsert "X-Content-Type-Options" "nosniff"
                (upsert "Content-Type" "text/plain; charset=utf-8" (headers w)).
Proof.
  unfold getRoot.
  destruct (String.eqb (URL_Path r) "/"); simpl;
    [destruct (String.eqb (Method r) "GET"); simpl|];
    eexists; repeat split; reflexivity.
Qed.

(** X8. On a path other than [/api], or a method other than [POST], both
    revisions of the ingestion handler answer the same 404 without looking
    at the request context or the form, without logging and without a
    write call; the path is checked before the method. *)
Theorem postSensorData_rejects (r : Request) :
  String.eqb (URL_Path r) "/api" && String.eqb (Method r) "POST" = false ->
  V1.postSensorData r World0 = V2.postSensorData r World0
  /\ response (V2.postSensorData r World0)
     = Some (StatusNotFound,
             (if String.eqb (URL_Path r) "/api"
              then "Method is not supported." else "404 not found.")
             +:+ String "010" "")
  /\ log (snd (V2.postSensorData r World0)) = []
  /\ writes (snd (V2.postSensorData r World0)) = [].
Proof.
  intros H. unfold V1.postSensorData, V2.postSensorData.
  destruct (String.eqb (URL_Path r) "/api"); simpl in *; [|done].
  rewrite H. done.
Qed.

(** X9. A [POST /api] whose context does not carry the write API makes
    the type assertion panic, in both revisions, before anything is
    logged, written or answered. *)
Theorem postSensorData_without_writeApi (r : Request) :
  URL_Path r = "/api" ->
  Method r = "POST" ->
  (forall api, Context r "writeApi" <> Some (ctx_writeApi api)) ->
  V1.postSensorData r World0 = (Panicked InterfaceConversion, World0)
  /\ V2.postSensorData r World0 = (Panicked InterfaceConversion, World0).
Proof.
  intros Hp Hm Hctx.
  unfold V1.postSensorData, V2.postSensorData, writeApi_of.
  rewrite Hp, Hm.
  change (String.eqb "/api" "/api") with true.
  change (String.eqb "POST" "POST") with true.
  cbn [negb]. cbv iota.
  destruct (Context r "writeApi") as [[|api]|] eqn:E;
    try (split; reflexivity).
  by destruct (Hctx api).
Qed.

Lemma V1_form_error_run r api e :
  ingestion api r ->
  ParseForm r = Some e ->
  V1.postSensorData r World0
  = (Done tt, add_logs [Printf "Error parsing form: %v" [a_error e]] World0).
Proof.
  intros Hin Hform. enter_route Hin. rewrite Hform. reflexivity.
Qed.

(** X10. When [ParseForm] fails, the first revision logs the error and
    returns: the client gets the default answer, 200 with an empty body,
    and nothing is written. *)
Theorem V1_form_error (r : Request) (api : WriteAPIBlocking) (e : error) :
  ingestion api r ->
  ParseForm r = Some e ->
  V1.postSensorData r World0
  = (Done tt, add_logs [Printf "Error parsing form: %v" [a_error e]] World0)
  /\ response (V1.postSensorData r World0) = Some (StatusOK, "").
Proof.
  intros Hin Hform. rewrite (V1_form_error_run _ _ _ Hin Hform).
  split; reflexivity.
Qed.

(** X11. When [ParseForm] fails on a request without body, the second
    revision does the same after logging the headers: 200 with an empty
    body, nothing written. *)
Theorem V2_form_error_no_body (r : Request) (api : WriteAPIBlocking) (e : error) :
  ingestion api r ->
  ParseForm r = Some e ->
  Body_nil r = true ->
  V2.postSensorData r World0
  = (Done tt,
     add_logs [Println [a_header (Header r)];
               Printf "Error parsing form: %v" [a_error e]] World0)
  /\ response (V2.postSensorData r World0) = Some (StatusOK, "").
Proof.
  intros Hin Hform Hbody.
  rewrite (V2_returned_run _ _ Hin (submitted_no_body _ _ Hform Hbody)).
  unfold form_log, V2.form_fields. rewrite Hform, Hbody.
  split; reflexivity.
Qed.

(** X12. When [ParseForm] fails on a request with a body and the
    multipart form is nil, or has no [data], the second revision panics
    on the multipart path: nothing is answered and nothing written. *)
Theorem V2_multipart_unreadable (r : Request) (api : WriteAPIBlocking) (e : error) :
  ingestion api r ->
  ParseForm r = Some e ->
  Body_nil r = false ->
  MultipartForm r = None
  \/ (exists mf, MultipartForm r = Some mf /\ values_of (Value mf) "data" = []) ->
  exists p,
    V2.postSensorData r World0
    = (Panicked p, add_logs [Println [a_header (Header r)]] World0)
    /\ (MultipartForm r = None -> p = NilDereference)
    /\ (MultipartForm r <> None -> p = IndexOutOfRange 0 0).
Proof.
  intros Hin Hform Hbody Hmf.
  assert (Hsub : exists p,
            submitted r = Panicked p /\ form_log r = []
            /\ (MultipartForm r = None -> p = NilDereference)
            /\ (MultipartForm r <> None -> p = IndexOutOfRange 0 0)).
  { unfold submitted, form_log, V2.form_fields, bind, deref, index, ret, throw.
    rewrite Hform, Hbody.
    destruct Hmf as [->|(mf & -> & ->)]; simpl; eexists; repeat split; done. }
  destruct Hsub as (p & Hsub & Hlog & H1 & H2).
  exists p. rewrite (V2_panicked_run _ _ _ Hin Hsub), Hlog. done.
Qed.

(** X13. The answer and the write call of the second revision depend on
    a submission only through its sanitized payload and its node tag:
    whether the fields came from the form or from the multipart form, and
    what white space the payload carried, makes no difference. *)
Theorem V2_depends_on_sanitized (r1 r2 : Request) (api : WriteAPIBlocking)
    (d1 d2 n1 n2 : string) :
  ingestion api r1 ->
  ingestion api r2 ->
  submitted r1 = Done (Some (d1, n1)) ->
  submitted r2 = Done (Some (d2, n2)) ->
  Replace replacer d1 = Replace replacer d2 ->
  node_tag n1 = node_tag n2 ->
  response (V2.postSensorData r1 World0) = response (V2.postSensorData r2 World0)
  /\ writes (snd (V2.postSensorData r1 World0))
     = writes (snd (V2.postSensorData r2 World0)).
Proof.
  intros Hin1 Hin2 Hs1 Hs2 Hd Hn.
  destruct (V2.err (parsed (Replace replacer d1))) as [e|] eqn:Herr.
  - destruct (V2_bad_payload_400 _ _ _ _ _ Hin1 Hs1 Herr) as [-> ->].
    rewrite Hd in Herr.
    destruct (V2_bad_payload_400 _ _ _ _ _ Hin2 Hs2 Herr) as [-> ->]. done.
  - rewrite (V2_accepted_run _ _ _ _ Hin1 Hs1 Herr).
    rewrite Hd in Herr.
    rewrite (V2_accepted_run _ _ _ _ Hin2 Hs2 Herr).
    rewrite Hd, Hn. done.
Qed.

(** X14. A form without the field [data] is answered 400 by the second
    revision, and nothing is written. *)
Theorem V2_missing_data (r : Request) (api : WriteAPIBlocking) :
  ingestion api r ->
  ParseForm r = None ->
  Form r !! "data" = None ->
  response (V2.postSensorData r World0)
  = Some (StatusBadRequest, "400 - Bad request data")
  /\ writes (snd (V2.postSensorData r World0)) = [].
Proof.
  intros Hin Hform Hdata.
  eapply V2_bad_payload_400; [exact Hin|by apply submitted_form|].
  rewrite (FormValue_absent _ _ Hdata). apply parsed_malformed.
  left. simpl. lia.
Qed.

(** X15. The second revision never answers 500.  Its answer is one of
    five, or none when it panics, and a write call is made exactly when
    the answer is 200 with the JSON body. *)
Theorem V2_answers (r : Request) :
  (writes (snd (V2.postSensorData r World0)) = []
   /\ (response (V2.postSensorData r World0) = None
       \/ response (V2.postSensorData r World0)
          = Some (StatusNotFound, "404 not found." +:+ String "010" "")
       \/ response (V2.postSensorData r World0)
          = Some (StatusNotFound, "Method is not supported." +:+ String "010" "")
       \/ response (V2.postSensorData r World0) = Some (StatusOK, "")
       \/ response (V2.postSensorData r World0)
          = Some (StatusBadRequest, "400 - Bad request data")))
  \/ (response (V2.postSensorData r World0) = Some (StatusOK, status_ok)
      /\ exists p1 p2, writes (snd (V2.postSensorData r World0)) = [[p1; p2]]).
Proof.
  destruct (String.eqb (URL_Path r) "/api") eqn:Hpath.
  2:{ left. unfold V2.postSensorData. rewrite Hpath. split; [done|]. right. by left. }
  destruct (String.eqb (Method r) "POST") eqn:Hmeth.
  2:{ left. unfold V2.postSensorData. rewrite Hpath, Hmeth. split; [done|].
      right. right. by left. }
  apply String.eqb_eq in Hpath, Hmeth.
  destruct (Context r "writeApi") as [[|api]|] eqn:Hctx.
  1,3: left; unfold V2.postSensorData, writeApi_of; rewrite Hpath, Hmeth, Hctx;
       split; [done|by left].
  assert (Hin : ingestion api r) by done.
  destruct (submitted r) as [[[data node]|]|p] eqn:Hsub.
  - destruct (V2.err (parsed (Replace replacer data))) as [e|] eqn:Herr.
    + left. destruct (V2_bad_payload_400 _ _ _ _ _ Hin Hsub Herr) as [-> ->].
      split; [done|]. do 4 right. done.
    + right. rewrite (V2_accepted_run _ _ _ _ Hin Hsub Herr). eauto.
  - left. rewrite (V2_returned_run _ _ Hin Hsub). split; [done|].
    do 3 right. by left.
  - left. rewrite (V2_panicked_run _ _ _ Hin Hsub). split; [done|by left].
Qed.

(** X16. On a request whose form parses and whose sanitized payload has
    four segments and three components, the two revisions give the same
    answer and make the same write call. *)
Theorem revisions_agree_on_accepted (r : Request) (api : WriteAPIBlocking)
    (s3 : string) :
  ingestion api r ->
  ParseForm r = None ->
  Split (Replace replacer (FormValue r "data")) "|" !! 3%nat = Some s3 ->
  (3 <= length (Split s3 ","))%nat ->
  response (V1.postSensorData r World0) = response (V2.postSensorData r World0)
  /\ writes (snd (V1.postSensorData r World0))
     = writes (snd (V2.postSensorData r World0))
  /\ response (V2.postSensorData r World0) = Some (StatusOK, status_ok).
Proof.
  intros Hin Hform H3 Hacc.
  destruct (well_formed_shape _ _ H3 Hacc)
    as (s0 & s1 & s2 & rest & a0 & a1 & a2 & rest' & E1 & E2).
  destruct (V1_accepted_run _ _ _ _ _ _ _ _ _ _ _ Hin Hform E1 E2) as [l ->].
  assert (Herr : V2.err (parsed (Replace replacer (FormValue r "data"))) = None)
    by (by rewrite (parsed_well_formed _ _ _ _ _ _ _ _ _ _ E1 E2)).
  rewrite (V2_accepted_run _ _ _ _ Hin (submitted_form _ Hform) Herr). done.
Qed.

(** X17. A node that is not blank is written on both records as it was
    submitted; unlike the payload it is not sanitized. *)
Theorem V2_node_passed_through (r : Request) (api : WriteAPIBlocking)
    (data node : string) :
  ingestion api r ->
  submitted r = Done (Some (data, node)) ->
  V2.err (parsed (Replace replacer data)) = None ->
  node <> "" ->
  exists p1 p2,
    writes (snd (V2.postSensorData r World0)) = [[p1; p2]]
    /\ tags p1 = [("location", node)]
    /\ tags p2 = [("location", node)].
Proof.
  intros Hin Hsub Herr Hnode.
  rewrite (V2_accepted_run _ _ _ _ Hin Hsub Herr).
  assert (Htag : node_tag node = node).
  { unfold node_tag. destruct (String.eqb node "") eqn:E; [|done].
    by apply String.eqb_eq in E. }
  rewrite Htag. do 2 eexists. repeat split.
Qed.

(** X18. With the context [main] installs, the second revision panics
    only on the multipart path: on [POST /api], after [ParseForm] failed
    on a request with a body, by a nil multipart form or a missing
    field. *)
Theorem V2_panics_only_on_multipart (r : Request) (api : WriteAPIBlocking)
    (p : panic) :
  fst (V2.postSensorData (WithContext (BaseContext api) r) World0) = Panicked p ->
  URL_Path r = "/api" /\ Method r = "POST"
  /\ ParseForm r <> None /\ Body_nil r = false
  /\ (p = NilDereference \/ p = IndexOutOfRange 0 0).
Proof.
  set (r' := WithContext (BaseContext api) r). intros Hpanic.
  destruct (String.eqb (URL_Path r) "/api") eqn:Hpath.
  2:{ unfold V2.postSensorData in Hpanic. simpl in Hpanic.
      rewrite Hpath in Hpanic. discriminate. }
  destruct (String.eqb (Method r) "POST") eqn:Hmeth.
  2:{ unfold V2.postSensorData in Hpanic. simpl in Hpanic.
      rewrite Hpath, Hmeth in Hpanic. discriminate. }
  apply String.eqb_eq in Hpath, Hmeth.
  assert (Hin : ingestion api r') by done.
  pose proof (submitted_cases r') as Hcases.
  destruct (submitted r') as [[[data node]|]|q] eqn:Hsub.
  - destruct (V2.err (parsed (Replace replacer data))) as [e|] eqn:Herr.
    + destruct (V2_bad_payload_400 _ _ _ _ _ Hin Hsub Herr) as [Hresp _].
      apply response_Done in Hresp. congruence.
    + rewrite (V2_accepted_run _ _ _ _ Hin Hsub Herr) in Hpanic. discriminate.
  - rewrite (V2_returned_run _ _ Hin Hsub) in Hpanic. discriminate.
  - rewrite (V2_panicked_run _ _ _ Hin Hsub) in Hpanic.
    simpl in Hpanic. inversion Hpanic; subst q.
    destruct Hcases as (H1 & H2 & H3). done.
Qed.

Lemma parse_inline_malformed_index {S} data (s : S) :
  (length (Split data "|") < 4)%nat
  \/ (exists s3, Split data "|" !! 3%nat = Some s3
                 /\ (length (Split s3 ",") < 3)%nat) ->
  exists i n, V1.parse_inline data s = (Panicked (IndexOutOfRange i n), s).
Proof.
  run_parse.
  destruct (Split data "|") as [|s0 [|s1 [|s2 [|s3 rest]]]]; simpl;
    try (intros _; do 2 eexists; reflexivity).
  intros [H|(s' & Hs & H)]; [lia|].
  inversion Hs; subst s'.
  destruct (Split s3 ",") as [|a0 [|a1 [|a2 rest']]]; simpl in *;
    try (do 2 eexists; reflexivity).
  lia.
Qed.

(** X19. With the context [main] installs, the first revision panics
    only on a [POST /api] whose form parses and whose sanitized payload
    lacks a segment or a component; the panic is an index out of range. *)
Theorem V1_panics_only_on_malformed (r : Request) (api : WriteAPIBlocking)
    (p : panic) :
  fst (V1.postSensorData (WithContext (BaseContext api) r) World0) = Panicked p ->
  URL_Path r = "/api" /\ Method r = "POST" /\ ParseForm r = None
  /\ ((length (Split (Replace replacer (FormValue r "data")) "|") < 4)%nat
      \/ (exists s3,
            Split (Replace replacer (FormValue r "data")) "|" !! 3%nat = Some s3
            /\ (length (Split s3 ",") < 3)%nat))
  /\ exists i n, p = IndexOutOfRange i n.
Proof.
  set (r' := WithContext (BaseContext api) r). intros Hpanic.
  destruct (String.eqb (URL_Path r) "/api") eqn:Hpath.
  2:{ unfold V1.postSensorData in Hpanic. simpl in Hpanic.
      rewrite Hpath in Hpanic. discriminate. }
  destruct (String.eqb (Method r) "POST") eqn:Hmeth.
  2:{ unfold V1.postSensorData in Hpanic. simpl in Hpanic.
      rewrite Hpath, Hmeth in Hpanic. discriminate. }
  apply String.eqb_eq in Hpath, Hmeth.
  assert (Hin : ingestion api r') by done.
  destruct (ParseForm r) as [e|] eqn:Hform.
  { assert (Hform' : ParseForm r' = Some e) by exact Hform.
    rewrite (V1_form_error_run _ _ _ Hin Hform') in Hpanic. discriminate. }
  assert (Hform' : ParseForm r' = None) by exact Hform.
  change (FormValue r "data") with (FormValue r' "data").
  destruct (structure_cases (Replace replacer (FormValue r' "data")))
    as [Hbad|(s0 & s1 & s2 & s3 & rest & a0 & a1 & a2 & rest' & E1 & E2)].
  - repeat split; try done.
    destruct (parse_inline_malformed_index _ World0 Hbad) as (i & n & Hinline).
    exists i, n.
    revert Hpanic. enter_route Hin. rewrite Hform'.
    unfold bind at 1. unfold ret at 1. cbv beta iota.
    unfold bind at 1. rewrite Hinline. simpl. congruence.
  - destruct (V1_accepted_run _ _ _ _ _ _ _ _ _ _ _ Hin Hform' E1 E2) as [l Hrun].
    rewrite Hrun in Hpanic. discriminate.
Qed.
End HandlerProperties.

(** ** The theorems at concrete requests *)

#[local] Existing Instance DecimalFloat64.

Lemma C1_witness :
  (length (Split "garbage" "|") < 4)%nat
  /\ (exists res w',
        V2.parseData (F := DecimalFloat64) "garbage" World0 = (Done res, w')
        /\ V2.err res = Some (errors_New "error parsing data"))
  /\ (exists p,
        V1.parse_inline (F := DecimalFloat64) "garbage" World0
        = (Panicked p, World0)).
Proof.
  split; [simpl; lia|].
  apply (C1_malformed_payload (F := DecimalFloat64) "garbage" World0 World0).
  left. simpl. lia.
Defined.

Lemma C2_witness :
  fst (V2.parseData (F := DecimalFloat64) payload World0)
  = Done {| V2.timestamp := 1700000000;
            V2.hum := dec 552 (-1); V2.temp := dec 214 (-1);
            V2.x := dec 1 (-2); V2.y := dec 2 (-2); V2.z := dec 981 (-2);
            V2.err := None |}.
Proof.
  apply (C2_parse_round_trip (F := DecimalFloat64)
           "1700000000" "55.2" "21.4" "0.01" "0.02" "9.81");
    vm_compute; reflexivity.
Defined.

Lemma C3_witness :
  exists res w',
    V2.parseData (F := DecimalFloat64) "12a|55.2|abc|0.01,,9.81" World0
    = (Done res, w')
    /\ V2.err res = None
    /\ V2.timestamp res = 0
    /\ V2.hum res = dec 552 (-1)
    /\ V2.temp res = float64_zero
    /\ V2.x res = dec 1 (-2)
    /\ V2.y res = float64_zero
    /\ V2.z res = dec 981 (-2).
Proof.
  destruct (C3_conversion_errors_dropped (F := DecimalFloat64)
              "12a|55.2|abc|0.01,,9.81" "12a" "55.2" "abc" "0.01,,9.81"
              "0.01" "" "9.81" [] [] World0 eq_refl eq_refl)
    as (res & w' & Hrun & Herr & Hts & Hh & Ht & Hx & Hy & Hz & _).
  exists res, w'. repeat split; assumption.
Defined.

Lemma C4_witness :
  response (V1.postSensorData garbage_request World0) = None
  /\ writes (snd (V1.postSensorData garbage_request World0)) = [].
Proof.
  apply (C4_first_revision_no_400 garbage_request accepting_api).
  - repeat split; reflexivity.
  - reflexivity.
  - left. vm_compute. lia.
Defined.

Lemma C5_witness :
  fst (V2.postSensorData nodeless_multipart_request World0)
  = Panicked (IndexOutOfRange 0 0)
  /\ response (V2.postSensorData nodeless_multipart_request World0) = None
  /\ writes (snd (V2.postSensorData nodeless_multipart_request World0)) = [].
Proof.
  apply (C5_multipart_without_node nodeless_multipart_request accepting_api
           (errors_New "invalid URL escape")
           {| Value := list_to_map [("data", [payload])] |} payload []).
  - repeat split; reflexivity.
  - reflexivity.
  - reflexivity.
  - reflexivity.
  - vm_compute. reflexivity.
  - vm_compute. reflexivity.
Defined.


Lemma C7_witness :
  writes (snd (V2.postSensorData (valid_request accepting_api) World0))
  = [[air_record "unknown" (parsed payload);
      accelerometer_record "unknown" (parsed payload)]]
  /\ writes (snd (V2.postSensorData garbage_request World0)) = [].
Proof.
  split.
  - apply (proj2 (proj2 (C7_zero_or_two_records (valid_request accepting_api)))
             accepting_api payload "").
    + repeat split; reflexivity.
    + vm_compute. reflexivity.
    + vm_compute. reflexivity.
  - apply (proj1 (proj2 (C7_zero_or_two_records garbage_request))
             accepting_api "garbage" "" (errors_New "error parsing data")).
    + repeat split; reflexivity.
    + vm_compute. reflexivity.
    + vm_compute. reflexivity.
Defined.


Lemma C10_witness :
  exists ts h t x y z,
    V1.parse_inline (F := DecimalFloat64) payload tt = (Done (ts, h, t, x, y, z), tt)
    /\ fst (V2.parseData payload World0)
       = Done {| V2.timestamp := ts; V2.hum := h; V2.temp := t;
                 V2.x := x; V2.y := y; V2.z := z; V2.err := None |}.
Proof.
  apply (C10_inline_parse_agrees (F := DecimalFloat64) payload "0.01,0.02,9.81" tt World0).
  - reflexivity.
  - simpl. lia.
Defined.

(** C3 as stated fails on a timestamp that is out of range: the conversion
    fails, [parseData] returns a nil error, and the field is the largest
    [int64], not zero. *)
Lemma C3_counterexample :
  snd (ParseInt "9223372036854775808") = Some ErrRange
  /\ fst (V2.parseData (F := DecimalFloat64)
            "9223372036854775808|55.2|21.4|0.01,0.02,9.81" World0)
     = Done {| V2.timestamp := 9223372036854775807;
               V2.hum := dec 552 (-1); V2.temp := dec 214 (-1);
               V2.x := dec 1 (-2); V2.y := dec 2 (-2); V2.z := dec 981 (-2);
               V2.err := None |}
  /\ 9223372036854775807 <> 0.
Proof. split; [|split]; [vm_compute; reflexivity..|discriminate]. Qed.

(** ** The further properties at concrete inputs *)

Lemma parseData_keeps_converted_witness :
  parsed "1700000000|55.2|21.4"
  = {| V2.timestamp := 1700000000;
       V2.hum := dec 552 (-1); V2.temp := dec 214 (-1);
       V2.x := float64_zero; V2.y := float64_zero; V2.z := float64_zero;
       V2.err := Some (errors_New "error parsing data") |}.
Proof.
  exact (parseData_keeps_converted "1700000000|55.2|21.4"
           "1700000000" "55.2" "21.4" eq_refl).
Defined.

Lemma parseData_ignores_trailing_segments_witness :
  parsed (payload +:+ String "|" "extra|more") = parsed payload
  /\ V2.err (parsed payload) = None.
Proof.
  apply (parseData_ignores_trailing_segments payload "0.01,0.02,9.81" "extra|more").
  - reflexivity.
  - simpl. lia.
Defined.

Lemma parseData_ignores_trailing_components_witness :
  parsed (payload +:+ String "," "7,8") = parsed payload.
Proof.
  apply (parseData_ignores_trailing_components payload
           "1700000000" "55.2" "21.4" "0.01,0.02,9.81" "7,8").
  - reflexivity.
  - simpl. lia.
  - reflexivity.
Defined.


Lemma postSensorData_rejects_witness :
  V1.postSensorData (bare_request "POST" "/other") World0
  = V2.postSensorData (bare_request "POST" "/other") World0
  /\ response (V2.postSensorData (bare_request "POST" "/other") World0)
     = Some (StatusNotFound, "404 not found." +:+ String "010" "")
  /\ log (snd (V2.postSensorData (bare_request "POST" "/other") World0)) = []
  /\ writes (snd (V2.postSensorData (bare_request "POST" "/other") World0)) = [].
Proof.
  apply (postSensorData_rejects (bare_request "POST" "/other")). reflexivity.
Defined.

Lemma postSensorData_without_writeApi_witness :
  V1.postSensorData (bare_request "POST" "/api") World0
  = (Panicked InterfaceConversion, World0)
  /\ V2.postSensorData (bare_request "POST" "/api") World0
     = (Panicked InterfaceConversion, World0).
Proof.
  apply (postSensorData_without_writeApi (bare_request "POST" "/api"));
    [reflexivity|reflexivity|discriminate].
Defined.

Lemma V1_form_error_witness :
  V1.postSensorData (form_error_request false) World0
  = (Done tt,
     add_logs [Printf "Error parsing form: %v"
                 [a_error (errors_New "invalid URL escape")]] World0)
  /\ response (V1.postSensorData (form_error_request false) World0)
     = Some (StatusOK, "").
Proof.
  apply (V1_form_error (form_error_request false) accepting_api
           (errors_New "invalid URL escape")).
  - repeat split; reflexivity.
  - reflexivity.
Defined.

Lemma V2_form_error_no_body_witness :
  V2.postSensorData (form_error_request true) World0
  = (Done tt,
     add_logs [Println [a_header []];
               Printf "Error parsing form: %v"
                 [a_error (errors_New "invalid URL escape")]] World0)
  /\ response (V2.postSensorData (form_error_request true) World0)
     = Some (StatusOK, "").
Proof.
  apply (V2_form_error_no_body (form_error_request true) accepting_api
           (errors_New "invalid URL escape")).
  - repeat split; reflexivity.
  - reflexivity.
  - reflexivity.
Defined.

Lemma V2_multipart_unreadable_witness :
  exists p,
    V2.postSensorData (form_error_request false) World0
    = (Panicked p, add_logs [Println [a_header []]] World0)
    /\ (MultipartForm (form_error_request false) = None -> p = NilDereference)
    /\ (MultipartForm (form_error_request false) <> None -> p = IndexOutOfRange 0 0).
Proof.
  apply (V2_multipart_unreadable (form_error_request false) accepting_api
           (errors_New "invalid URL escape")).
  - repeat split; reflexivity.
  - reflexivity.
  - reflexivity.
  - left. reflexivity.
Defined.

Lemma V2_depends_on_sanitized_witness :
  response (V2.postSensorData spaced_multipart_request World0)
  = response (V2.postSensorData (valid_request accepting_api) World0)
  /\ writes (snd (V2.postSensorData spaced_multipart_request World0))
     = writes (snd (V2.postSensorData (valid_request accepting_api) World0)).
Proof.
  apply (V2_depends_on_sanitized spaced_multipart_request
           (valid_request accepting_api) accepting_api
           " 1700000000|55.2 |21.4|0.01, 0.02,9.81" payload "unknown" "").
  - repeat split; reflexivity.
  - repeat split; reflexivity.
  - vm_compute. reflexivity.
  - vm_compute. reflexivity.
  - vm_compute. reflexivity.
  - reflexivity.
Defined.

Lemma V2_missing_data_witness :
  response (V2.postSensorData
              (form_request "POST" "/api" accepting_api [("node", ["roof 2"])])
              World0)
  = Some (StatusBadRequest, "400 - Bad request data")
  /\ writes (snd (V2.postSensorData
                    (form_request "POST" "/api" accepting_api [("node", ["roof 2"])])
                    World0)) = [].
Proof.
  apply (V2_missing_data
           (form_request "POST" "/api" accepting_api [("node", ["roof 2"])])
           accepting_api).
  - repeat split; reflexivity.
  - reflexivity.
  - vm_compute. reflexivity.
Defined.

Lemma revisions_agree_on_accepted_witness :
  response (V1.postSensorData (valid_request accepting_api) World0)
  = response (V2.postSensorData (valid_request accepting_api) World0)
  /\ writes (snd (V1.postSensorData (valid_request accepting_api) World0))
     = writes (snd (V2.postSensorData (valid_request accepting_api) World0))
  /\ response (V2.postSensorData (valid_request accepting_api) World0)
     = Some (StatusOK, status_ok).
Proof.
  apply (revisions_agree_on_accepted (valid_request accepting_api) accepting_api
           "0.01,0.02,9.81").
  - repeat split; reflexivity.
  - reflexivity.
  - vm_compute. reflexivity.
  - simpl. lia.
Defined.

Lemma V2_node_passed_through_witness :
  exists p1 p2,
    writes (snd (V2.postSensorData named_request World0)) = [[p1; p2]]
    /\ tags p1 = [("location", "roof 2")]
    /\ tags p2 = [("location", "roof 2")].
Proof.
  apply (V2_node_passed_through named_request accepting_api payload "roof 2").
  - repeat split; reflexivity.
  - vm_compute. reflexivity.
  - vm_compute. reflexivity.
  - discriminate.
Defined.

Lemma V2_panics_only_on_multipart_witness :
  URL_Path nodeless_multipart_request = "/api"
  /\ Method nodeless_multipart_request = "POST"
  /\ ParseForm nodeless_multipart_request <> None
  /\ Body_nil nodeless_multipart_request = false
  /\ (IndexOutOfRange 0 0 = NilDereference
      \/ IndexOutOfRange 0 0 = IndexOutOfRange 0 0).
Proof.
  apply (V2_panics_only_on_multipart nodeless_multipart_request accepting_api
           (IndexOutOfRange 0 0)).
  vm_compute. reflexivity.
Defined.

Lemma V1_panics_only_on_malformed_witness :
  URL_Path garbage_request = "/api" /\ Method garbage_request = "POST"
  /\ ParseForm garbage_request = None
  /\ ((length (Split (Replace replacer (FormValue garbage_request "data")) "|") < 4)%nat
      \/ (exists s3,
            Split (Replace replacer (FormValue garbage_request "data")) "|" !! 3%nat
            = Some s3
            /\ (length (Split s3 ",") < 3)%nat))
  /\ exists i n, IndexOutOfRange 1 1 = IndexOutOfRange i n.
Proof.
  apply (V1_panics_only_on_malformed garbage_request accepting_api
           (IndexOutOfRange 1 1)).
  vm_compute. reflexivity.
Defined.
